(** * amplifier-foundation: source resolution, mention resolution and
    content de-duplication

  A shallow embedding of

  - [amplifier_foundation/sources/file.py]      ([FileSourceHandler]),
  - [amplifier_foundation/mentions/resolver.py] ([BaseMentionResolver]),
  - [amplifier_foundation/mentions/deduplicator.py] ([ContentDeduplicator]),
  - the bundle registry's [unregister], of which only the tests are at hand,

  followed by the properties the specification states about them.

  Python values are modelled as follows.  A [str] is a [string]; an
  exception is a value of [py.exn] and a call that may raise returns a
  [py.result]; a [pathlib.Path] is its anchor and its list of names, as
  [PurePosixPath] keeps them; what the interpreter asks the operating
  system (working directory, [realpath], [stat], the password database) is
  read from an explicit [filesystem] record, each operation answering;
  [posix.system] is the same with the exception each operation may raise,
  for the properties that turn on one of them failing. *)

From Stdlib Require Import ZArith Ascii String.
From stdpp Require Import gmap strings list fin_maps.

(* ===================================================================== *)
(** ** Python: exceptions, results, a few [str] methods                   *)
(* ===================================================================== *)

Module py.

Inductive exn : Type :=
| BundleNotFoundError (msg : string)
| KeyError (key : string)
| ValueError (msg : string)
| RuntimeError (msg : string).

Inductive result (A : Type) : Type :=
| Return (a : A)
| Raise (e : exn).
Arguments Return {A} a.
Arguments Raise {A} e.

Definition bind {A B : Type} (m : result A) (k : A -> result B) : result B :=
  match m with
  | Return a => k a
  | Raise e => Raise e
  end.

Definition raises {A : Type} (m : result A) : bool :=
  match m with Return _ => false | Raise _ => true end.

(** [s.startswith(pre)] *)
Fixpoint startswith (pre s : string) : bool :=
  match pre, s with
  | "", _ => true
  | String a pre', String b s' => if Ascii.eqb a b then startswith pre' s' else false
  | String _ _, "" => false
  end.

(** [c in s] for a one-character [c] *)
Fixpoint contains (c : ascii) (s : string) : bool :=
  match s with
  | "" => false
  | String a s' => if Ascii.eqb a c then true else contains c s'
  end.

(** [s.split(sep)] for a one-character [sep]: never the empty list. *)
Fixpoint split (sep : ascii) (s : string) : list string :=
  match s with
  | "" => [""]
  | String a s' =>
      if Ascii.eqb a sep then "" :: split sep s'
      else match split sep s' with
           | w :: ws => String a w :: ws
           | [] => [String a ""]
           end
  end.

(** [s.split(sep, 1)]: at most one cut, at the first [sep]. *)
Fixpoint split1 (sep : ascii) (s : string) : list string :=
  match s with
  | "" => [""]
  | String a s' =>
      if Ascii.eqb a sep then [""; s']
      else match split1 sep s' with
           | w :: ws => String a w :: ws
           | [] => [String a ""]
           end
  end.

(** [s[1:]] *)
Definition tail (s : string) : string :=
  match s with
  | "" => ""
  | String _ s' => s'
  end.

(** [sep.join(ws)] *)
Fixpoint join (sep : string) (ws : list string) : string :=
  match ws with
  | [] => ""
  | [w] => w
  | w :: ws' => w +:+ sep +:+ join sep ws'
  end.

End py.

Notation "'try!' x ':=' m 'in' k" := (py.bind m (fun x => k))
(at level 10, x name, m at level 100, k at level 200).

(* ===================================================================== *)
(** ** pathlib: pure POSIX paths                                          *)
(* ===================================================================== *)

Module pathlib.

(** The root of a POSIX path: none, [/], or the implementation-defined
    [//] that exactly two leading slashes give. *)
Inductive anchor : Type := Rel | Root | Root2.

Record Path : Type := mkPath { root : anchor; names : list string }.

#[global] Instance anchor_eq_dec : EqDecision anchor.
Proof. solve_decision. Defined.
#[global] Instance Path_eq_dec : EqDecision Path.
Proof. solve_decision. Defined.

Definition parse_anchor (s : string) : anchor :=
  match s with
  | String "/" (String "/" (String "/" _)) => Root
  | String "/" (String "/" _) => Root2
  | String "/" _ => Root
  | _ => Rel
  end.

(** A name kept by the parser: not empty and not [.]. *)
Definition kept (n : string) : bool :=
  negb (String.eqb n "") && negb (String.eqb n ".").

(** What the parser leaves as a name: kept, and free of [/]. *)
Definition is_name (n : string) : Prop :=
  kept n = true /\ py.contains "/" n = false.

(** [Path(s)] *)
Definition of_str (s : string) : Path :=
  {| root := parse_anchor s; names := List.filter kept (py.split "/" s) |}.

Definition anchor_str (a : anchor) : string :=
  match a with Rel => "" | Root => "/" | Root2 => "//" end.

(** [str(p)] *)
Definition str (p : Path) : string :=
  match root p, names p with
  | Rel, [] => "."
  | a, ns => anchor_str a +:+ py.join "/" ns
  end.

(** [p.parts] *)
Definition parts (p : Path) : list string :=
  match root p with
  | Rel => names p
  | a => anchor_str a :: names p
  end.

Definition is_absolute (p : Path) : bool :=
  match root p with Rel => false | _ => true end.

(** [p / q] for two paths: an anchored right operand replaces the left. *)
Definition joinpath (p q : Path) : Path :=
  match root q with
  | Rel => {| root := root p; names := names p ++ names q |}
  | _ => q
  end.

(** [p / s] for a string [s] *)
Definition truediv (p : Path) (s : string) : Path := joinpath p (of_str s).

(** [p.parent]: the anchor, or the empty relative path, is its own parent. *)
Definition parent (p : Path) : Path :=
  {| root := root p; names := removelast (names p) |}.

Fixpoint strip_prefix (pre l : list string) : option (list string) :=
  match pre, l with
  | [], _ => Some l
  | a :: pre', b :: l' => if String.eqb a b then strip_prefix pre' l' else None
  | _ :: _, [] => None
  end.

(** [p.relative_to(q)]: [ValueError] unless [q]'s anchor and names start [p]'s. *)
Definition relative_to (p q : Path) : py.result Path :=
  if bool_decide (root p = root q) then
    match strip_prefix (names q) (names p) with
    | Some rest => py.Return {| root := Rel; names := rest |}
    | None => py.Raise (py.ValueError (str p +:+ " is not in the subpath of " +:+ str q))
    end
  else py.Raise (py.ValueError (str p +:+ " is not in the subpath of " +:+ str q)).

(** [a] is [b] or lies below it (what [a.is_relative_to(b)] tests). *)
Definition is_relative_to (a b : Path) : Prop :=
  root a = root b /\ exists rest, names a = names b ++ rest.

(** What a process sees of the operating system. *)
Record filesystem : Type := mkFS {
  cwd : Path;                          (* Path.cwd(), absolute *)
  os_realpath : string -> string;      (* os.path.realpath on an absolute path *)
  path_exists : Path -> bool;          (* p.exists() *)
  path_is_file : Path -> bool;         (* p.is_file() *)
  home_of : string -> option string    (* home directory of a user; "" is the caller *)
}.

(** [p.resolve()]: a relative path is taken from the working directory,
    [realpath] follows the links, and the answer is parsed back. *)
Definition absolute (fs : filesystem) (p : Path) : Path :=
  if is_absolute p then p else joinpath (cwd fs) p.

Definition resolve (fs : filesystem) (p : Path) : Path :=
  of_str (os_realpath fs (str (absolute fs p))).

End pathlib.

Import pathlib.

(* ===================================================================== *)
(** ** sources/file.py: [FileSourceHandler]                               *)
(* ===================================================================== *)

Module file_source.

(** [ParsedURI], as far as the handler reads it.  The URI parser is a
    collaborator; [subpath] is the [#subdirectory=] fragment. *)
Record ParsedURI : Type := mkParsedURI {
  scheme : string;
  path : string;
  subpath : option string;
  is_file : bool
}.

Record ResolvedSource : Type := mkResolvedSource {
  active_path : Path;
  source_root : Path
}.

Record FileSourceHandler : Type := mkHandler { base_path : Path }.

(** [FileSourceHandler(base_path)]: [base_path or Path.cwd()] *)
Definition init (fs : filesystem) (base : option Path) : FileSourceHandler :=
  {| base_path := match base with Some b => b | None => cwd fs end |}.

Definition can_handle (self : FileSourceHandler) (parsed : ParsedURI) : bool :=
  is_file parsed.

(** [if parsed.subpath:] is false on [None] and on the empty string. *)
Definition truthy (s : option string) : option string :=
  match s with
  | Some "" => None
  | other => other
  end.

(** The path named by the URI, after [.resolve()] and before the
    subpath is applied. *)
Definition resolved_path (self : FileSourceHandler) (fs : filesystem)
    (parsed : ParsedURI) : Path :=
  let path_str := path parsed in
  let resolved_path :=
    if py.startswith "./" path_str || py.startswith "../" path_str
    then truediv (base_path self) path_str
    else of_str path_str in
  resolve fs resolved_path.

(** [resolved_path / parsed.subpath] when there is a subpath. *)
Definition apply_subpath (resolved_path : Path) (parsed : ParsedURI) : Path :=
  match truthy (subpath parsed) with
  | Some sub => truediv resolved_path sub
  | None => resolved_path
  end.

Definition _find_source_root (self : FileSourceHandler) (fs : filesystem)
    (active_path cache_dir : Path) : py.result Path :=
  let cache_dir := resolve fs cache_dir in
  let fallback :=
    if path_is_file fs active_path then py.Return (parent active_path)
    else py.Return active_path in
  match relative_to active_path cache_dir with
  | py.Return relative =>
      match parts relative with
      | repo_folder :: _ => py.Return (truediv cache_dir repo_folder)
      | [] => fallback
      end
  | py.Raise (py.ValueError _) => fallback
  | py.Raise e => py.Raise e
  end.

Definition resolve (self : FileSourceHandler) (fs : filesystem)
    (parsed : ParsedURI) (cache_dir : Path) : py.result ResolvedSource :=
  let resolved_path := resolved_path self fs parsed in
  let active_path := apply_subpath resolved_path parsed in
  if negb (path_exists fs active_path) then
    py.Raise (py.BundleNotFoundError ("File not found: " +:+ str active_path))
  else
    try! source_root := _find_source_root self fs active_path cache_dir in
    py.Return {| active_path := active_path; source_root := source_root |}.

End file_source.

(* ===================================================================== *)
(** ** A small link-free file system to run the definitions on            *)
(* ===================================================================== *)

Module sample.

(** Lexical [normpath]: [..] drops the name before it (and stays put at
    the root); with no symbolic links this is what [realpath] returns. *)
Fixpoint normnames (done todo : list string) : list string :=
  match todo with
  | [] => rev done
  | ".." :: todo' => normnames (List.tl done) todo'
  | n :: todo' => normnames (n :: done) todo'
  end.

Definition normpath (s : string) : string :=
  let p := of_str s in
  str {| root := root p; names := normnames [] (names p) |}.

Definition norm (p : Path) : Path := of_str (normpath (str p)).

Definition mem (p : Path) (l : list string) : bool :=
  bool_decide (norm p ∈ of_str <$> l).

Fixpoint assoc (k : string) (l : list (string * string)) : option string :=
  match l with
  | [] => None
  | (k', v) :: l' => if String.eqb k k' then Some v else assoc k l'
  end.

(** Directories [dirs], regular files [files], users and their homes. *)
Definition make (wd : string) (dirs files : list string)
    (homes : list (string * string)) : filesystem :=
  {| cwd := of_str wd;
     os_realpath := normpath;
     path_exists := fun p => mem p dirs || mem p files;
     path_is_file := fun p => mem p files;
     home_of := fun user => assoc user homes |}.

(** The tree of [test_subdirectory_bundle_gets_source_base_paths]. *)
Definition repo_fs : filesystem :=
  make "/work"
    ["/"; "/root"; "/work"; "/tmp"; "/tmp/t"; "/tmp/t/home"; "/tmp/t/home/cache";
     "/tmp/t/context"; "/tmp/t/behaviors"; "/tmp/t/behaviors/recipes";
     "/tmp/t/home/cache/foundation-abc"; "/tmp/t/home/cache/foundation-abc/behaviors"]
    ["/tmp/t/bundle.md"; "/tmp/t/context/shared.md";
     "/tmp/t/behaviors/recipes/bundle.yaml";
     "/tmp/t/home/cache/foundation-abc/behaviors/logging.yaml";
     "/work/notes.md"; "/work/ghost:notes"]
    [("", "/root")].

Definition uri (p : string) (sub : option string) : file_source.ParsedURI :=
  {| file_source.scheme := "file"; file_source.path := p;
     file_source.subpath := sub; file_source.is_file := true |}.

End sample.

(* ===================================================================== *)
(** ** hashlib: SHA-256 (FIPS 180-4) on byte strings                      *)
(* ===================================================================== *)

Module hashlib.
Local Open Scope Z_scope.

Definition w32 (x : Z) : Z := x mod 2 ^ 32.
Definition rotr (n x : Z) : Z := w32 (Z.lor (Z.shiftr x n) (Z.shiftl x (32 - n))).
Definition Ch (x y z : Z) : Z := Z.lxor (Z.land x y) (Z.land (w32 (Z.lnot x)) z).
Definition Maj (x y z : Z) : Z :=
  Z.lxor (Z.lxor (Z.land x y) (Z.land x z)) (Z.land y z).
Definition Sigma0 (x : Z) : Z := Z.lxor (Z.lxor (rotr 2 x) (rotr 13 x)) (rotr 22 x).
Definition Sigma1 (x : Z) : Z := Z.lxor (Z.lxor (rotr 6 x) (rotr 11 x)) (rotr 25 x).
Definition sigma0 (x : Z) : Z := Z.lxor (Z.lxor (rotr 7 x) (rotr 18 x)) (Z.shiftr x 3).
Definition sigma1 (x : Z) : Z := Z.lxor (Z.lxor (rotr 17 x) (rotr 19 x)) (Z.shiftr x 10).

(** The constants are the fractional bits of square and cube roots of
    the first primes; they are computed here rather than tabulated. *)
Definition is_prime (n : nat) : bool :=
  forallb (fun d => negb (Nat.eqb (n mod d) 0)) (seq 2 (n - 2)).

Definition primes64 : list Z :=
  Eval vm_compute in map Z.of_nat (List.filter is_prime (seq 2 310)).

Fixpoint cbrt_bits (bits : nat) (n r : Z) : Z :=
  match bits with
  | O => r
  | S b =>
      let c := r + 2 ^ Z.of_nat b in
      cbrt_bits b n (if c * c * c <=? n then c else r)
  end.

Definition initial_hash : list Z :=
  Eval vm_compute in map (fun p => w32 (Z.sqrt (p * 2 ^ 64))) (take 8 primes64).

Definition round_constants : list Z :=
  Eval vm_compute in map (fun p => w32 (cbrt_bits 36 (p * 2 ^ 96) 0)) primes64.

Definition byte_of (c : ascii) : Z := Z.of_N (N_of_ascii c).

Fixpoint bytes_of (s : string) : list Z :=
  match s with
  | EmptyString => []
  | String c s' => byte_of c :: bytes_of s'
  end.

Fixpoint be_bytes (count : nat) (x : Z) : list Z :=
  match count with
  | O => []
  | S k => Z.shiftr x (8 * Z.of_nat k) mod 256 :: be_bytes k x
  end.

(** The message, a [1] bit, zeros up to 56 mod 64, the bit length on 8 bytes. *)
Definition pad (msg : list Z) : list Z :=
  let len := Z.of_nat (length msg) in
  let zeros := Z.to_nat ((55 - len) mod 64) in
  msg ++ [128] ++ repeat 0 zeros ++ be_bytes 8 (8 * len).

Fixpoint words (fuel : nat) (bytes : list Z) : list Z :=
  match fuel, bytes with
  | S k, a :: b :: c :: d :: rest =>
      (((a * 256 + b) * 256 + c) * 256 + d) :: words k rest
  | _, _ => []
  end.

(** The schedule is grown newest first: [recent] holds W(t-1), W(t-2), ... *)
Fixpoint extend (count : nat) (recent : list Z) : list Z :=
  match count with
  | O => recent
  | S k =>
      let w := w32 (sigma1 (nth 1 recent 0) + nth 6 recent 0
                    + sigma0 (nth 14 recent 0) + nth 15 recent 0) in
      extend k (w :: recent)
  end.

Definition schedule (block : list Z) : list Z := rev (extend 48 (rev block)).

Definition round (v : list Z) (kw : Z * Z) : list Z :=
  match v with
  | [a; b; c; d; e; f; g; h] =>
      let t1 := h + Sigma1 e + Ch e f g + fst kw + snd kw in
      let t2 := Sigma0 a + Maj a b c in
      [w32 (t1 + t2); a; b; c; w32 (d + t1); e; f; g]
  | _ => v
  end.

Definition compress (h : list Z) (block : list Z) : list Z :=
  let v := fold_left round (combine round_constants (schedule block)) h in
  map (fun xy => w32 (fst xy + snd xy)) (combine h v).

Fixpoint blocks (fuel : nat) (ws : list Z) : list (list Z) :=
  match fuel, ws with
  | _, [] => []
  | O, _ => []
  | S k, _ => take 16 ws :: blocks k (drop 16 ws)
  end.

Definition digest_words (msg : list Z) : list Z :=
  let bytes := pad msg in
  let ws := words (length bytes) bytes in
  fold_left compress (blocks (length ws) ws) initial_hash.

Definition hex_digit (x : Z) : ascii :=
  nth (Z.to_nat x) (list_ascii_of_string "0123456789abcdef") "0"%char.

Fixpoint hex (digits : nat) (x : Z) : string :=
  match digits with
  | O => EmptyString
  | S k => String (hex_digit (Z.shiftr x (4 * Z.of_nat k) mod 16)) (hex k x)
  end.

(** [hashlib.sha256(s.encode()).hexdigest()]; the [string] is the UTF-8
    encoding of the Python text. *)
Definition sha256_hexdigest (s : string) : string :=
  fold_right (fun w acc => hex 8 w +:+ acc) EmptyString (digest_words (bytes_of s)).

#[global] Arguments sha256_hexdigest : simpl never.

End hashlib.

(* ===================================================================== *)
(** ** [dict] with string keys: insertion order is kept                   *)
(* ===================================================================== *)

Module dict.
Section ops.
Context {V : Type}.

(** [d.get(k)] *)
Fixpoint get (k : string) (d : list (string * V)) : option V :=
  match d with
  | [] => None
  | (k', v) :: d' => if String.eqb k k' then Some v else get k d'
  end.

(** [k in d] *)
Definition contains (k : string) (d : list (string * V)) : bool :=
  match get k d with Some _ => true | None => false end.

(** [d[k]] *)
Definition getitem (k : string) (d : list (string * V)) : py.result V :=
  match get k d with
  | Some v => py.Return v
  | None => py.Raise (py.KeyError k)
  end.

(** [d[k] = v]: a known key keeps its place, a new one goes last. *)
Fixpoint setitem (k : string) (v : V) (d : list (string * V)) : list (string * V) :=
  match d with
  | [] => [(k, v)]
  | (k', v') :: d' =>
      if String.eqb k k' then (k', v) :: d' else (k', v') :: setitem k v d'
  end.

Definition keys (d : list (string * V)) : list string := d.*1.
End ops.
End dict.

(* ===================================================================== *)
(** ** mentions/deduplicator.py: [ContentDeduplicator]                    *)
(* ===================================================================== *)

Module deduplicator.

Record ContextFile : Type := mkContextFile {
  content : string;
  content_hash : string;
  paths : list Path
}.

Record ContentDeduplicator : Type := mkDedup {
  _content_by_hash : list (string * string);
  _paths_by_hash : list (string * list Path)
}.

Definition init : ContentDeduplicator :=
  {| _content_by_hash := []; _paths_by_hash := [] |}.

(** Each method takes [self] and returns its value with [self] as the
    call leaves it. *)
Definition add_file (self : ContentDeduplicator) (path : Path) (content : string)
    : py.result (bool * ContentDeduplicator) :=
  let content_hash := hashlib.sha256_hexdigest content in
  if negb (dict.contains content_hash (_content_by_hash self)) then
    py.Return (true,
      {| _content_by_hash := dict.setitem content_hash content (_content_by_hash self);
         _paths_by_hash := dict.setitem content_hash [path] (_paths_by_hash self) |})
  else
    try! tracked := dict.getitem content_hash (_paths_by_hash self) in
    if negb (bool_decide (path ∈ tracked)) then
      (* [.append(path)] on the list held by the dictionary *)
      py.Return (false,
        {| _content_by_hash := _content_by_hash self;
           _paths_by_hash :=
             dict.setitem content_hash (tracked ++ [path]) (_paths_by_hash self) |})
    else py.Return (false, self).

(** The comprehension of [get_unique_files], one item of
    [_content_by_hash] at a time.  Each [ContextFile] is handed the list
    object the dictionary holds. *)
Fixpoint collect (self : ContentDeduplicator) (items : list (string * string))
    : py.result (list ContextFile) :=
  match items with
  | [] => py.Return []
  | (content_hash, content) :: items' =>
      try! paths := dict.getitem content_hash (_paths_by_hash self) in
      try! rest := collect self items' in
      py.Return ({| content := content; content_hash := content_hash; paths := paths |}
                 :: rest)
  end.

Definition get_unique_files (self : ContentDeduplicator)
    : py.result (list ContextFile * ContentDeduplicator) :=
  try! files := collect self (_content_by_hash self) in
  py.Return (files, self).

Definition is_seen (self : ContentDeduplicator) (content : string)
    : py.result (bool * ContentDeduplicator) :=
  let content_hash := hashlib.sha256_hexdigest content in
  py.Return (dict.contains content_hash (_content_by_hash self), self).

Definition get_known_hashes (self : ContentDeduplicator)
    : py.result (gset string * ContentDeduplicator) :=
  py.Return (list_to_set (dict.keys (_content_by_hash self)), self).

(** A sequence of [add_file(path, content)] calls on a deduplicator. *)
Fixpoint add_files (self : ContentDeduplicator) (calls : list (Path * string))
    : py.result ContentDeduplicator :=
  match calls with
  | [] => py.Return self
  | (path, content) :: calls' =>
      try! r := add_file self path content in
      add_files r.2 calls'
  end.

(** The elements of a list in the order in which each first occurs. *)
Fixpoint first_seen {A : Type} `{EqDecision A} (l : list A) : list A :=
  match l with
  | [] => []
  | x :: l' => x :: List.filter (fun y => negb (bool_decide (y = x))) (first_seen l')
  end.

(** The paths under which a call supplied content hashing to [h]. *)
Definition paths_of (h : string) (calls : list (Path * string)) : list Path :=
  (List.filter (fun c => String.eqb (hashlib.sha256_hexdigest c.2) h) calls).*1.

(** What holds of a deduplicator after the calls [calls]. *)
Record tracks (calls : list (Path * string)) (self : ContentDeduplicator) : Prop := {
  tracks_hashes :
    dict.keys (_content_by_hash self) = first_seen (hashlib.sha256_hexdigest <$> calls.*2);
  tracks_same_keys :
    dict.keys (_paths_by_hash self) = dict.keys (_content_by_hash self);
  tracks_paths : forall h ps,
    dict.get h (_paths_by_hash self) = Some ps -> ps = first_seen (paths_of h calls);
  tracks_content : forall h c,
    dict.get h (_content_by_hash self) = Some c -> hashlib.sha256_hexdigest c = h /\ c ∈ calls.*2
}.

End deduplicator.

(* ===================================================================== *)
(** ** mentions/resolver.py: [BaseMentionResolver]                        *)
(* ===================================================================== *)

Module mention_resolver.

(** A [Bundle], as far as the resolver uses it: the class is a
    collaborator, [resolve_context_path] is whatever it answers, and a
    bundle object counts as true in [if bundle := ...]. *)
Record Bundle : Type := mkBundle {
  name : string;
  resolve_context_path : string -> option Path
}.

Record BaseMentionResolver : Type := mkResolver {
  bundles : gmap string Bundle;
  base_path : Path          (* stored, not used for [@path] *)
}.

Definition init (fs : filesystem) (bundles : option (gmap string Bundle))
    (base : option Path) : BaseMentionResolver :=
  {| bundles := match bundles with Some b => b | None => ∅ end;
     base_path := match base with Some b => b | None => cwd fs end |}.

(** [os.path.expanduser] on one name: unchanged when the user is unknown. *)
Definition os_path_expanduser (fs : filesystem) (s : string) : string :=
  match s with
  | String "~" user =>
      match home_of fs user with Some home => home | None => s end
  | _ => s
  end.

(** [Path.expanduser] *)
Definition expanduser (fs : filesystem) (p : Path) : py.result Path :=
  match root p, names p with
  | Rel, first :: rest =>
      if py.startswith "~" first then
        let homedir := os_path_expanduser fs first in
        if py.startswith "~" homedir
        then py.Raise (py.RuntimeError "Could not determine home directory.")
        else py.Return (joinpath (of_str homedir) {| root := Rel; names := rest |})
      else py.Return p
  | _, _ => py.Return p
  end.

(** The two candidates of pattern 2, both computed before either is
    looked up. *)
Definition candidates (fs : filesystem) (mention_body : string)
    : py.result (Path * Path) :=
  if py.startswith "~" mention_body then
    try! path := expanduser fs (of_str mention_body) in
    try! path_md := expanduser fs (of_str (mention_body +:+ ".md")) in
    py.Return (path, path_md)
  else
    let cwd := cwd fs in
    py.Return (truediv cwd mention_body, truediv cwd (mention_body +:+ ".md")).

Definition resolve (self : BaseMentionResolver) (fs : filesystem)
    (mention : string) : py.result (option Path) :=
  if negb (py.startswith "@" mention) then py.Return None
  else
    let mention_body := py.tail mention in
    if py.contains ":" mention_body then
      match py.split1 ":" mention_body with
      | [namespace; name] =>
          match bundles self !! namespace with
          | Some bundle => py.Return (resolve_context_path bundle name)
          | None => py.Return None
          end
      | _ => py.Raise (py.ValueError "not enough values to unpack")
      end
    else
      try! c := candidates fs mention_body in
      let '(path, path_md) := c in
      if path_exists fs path then py.Return (Some path)
      else if path_exists fs path_md then py.Return (Some path_md)
      else py.Return None.

Definition register_bundle (self : BaseMentionResolver) (name : string)
    (bundle : Bundle) : BaseMentionResolver :=
  {| bundles := <[name := bundle]> (bundles self); base_path := base_path self |}.

(** A bundle that keeps its context files under [/bundles/<name>/context]. *)
Definition context_bundle (name : string) : Bundle :=
  {| name := name;
     resolve_context_path := fun ctx =>
       Some (truediv (of_str ("/bundles/" +:+ name +:+ "/context")) (ctx +:+ ".md")) |}.

Definition sample_resolver : BaseMentionResolver :=
  register_bundle (init sample.repo_fs None None) "foundation"
    (context_bundle "foundation").

End mention_resolver.

(* ===================================================================== *)
(** ** The bundle registry: [unregister]                                  *)
(* ===================================================================== *)

Module registry.

Record BundleState : Type := mkState {
  source : string;
  includes : list string;
  included_by : list string
}.

(** [l] without [name]. *)
Definition without (name : string) (l : list string) : list string :=
  List.filter (fun n => negb (String.eqb n name)) l.

Definition drop_included_by (name : string) (st : BundleState) : BundleState :=
  {| source := source st; includes := includes st;
     included_by := without name (included_by st) |}.

Definition drop_includes (name : string) (st : BundleState) : BundleState :=
  {| source := source st; includes := without name (includes st);
     included_by := included_by st |}.

(** Modelled from the spec: [register] of the absent
    [amplifier_foundation/registry.py]; it inserts or overwrites one
    state per name and records nothing but the source. *)
Definition register (mapping : list (string * string))
    (reg : gmap string BundleState) : gmap string BundleState :=
  foldl (fun r kv => <[kv.1 := {| source := kv.2; includes := []; included_by := [] |}]> r)
        reg mapping.

(** Modelled from the spec: [unregister] of the absent
    [amplifier_foundation/registry.py], sentence by sentence of section
    4.2.  An unknown name answers [False].  A known one is removed; each
    state named in its [includes] loses the name from its [included_by],
    and each state named in its [included_by] loses it from its
    [includes], a neighbour that is not registered or does not hold the
    name being passed over; and no reference to the name is left in
    either direction, also where only one side of a relationship was
    recorded: every remaining state loses the name from both lists. *)
Definition unregister (name : string) (reg : gmap string BundleState)
    : py.result (bool * gmap string BundleState) :=
  match reg !! name with
  | None => py.Return (false, reg)
  | Some state =>
      let reg := delete name reg in
      let reg := foldl (fun r child => alter (drop_included_by name) child r)
                       reg (includes state) in
      let reg := foldl (fun r parent => alter (drop_includes name) parent r)
                       reg (included_by state) in
      let reg := (fun st => drop_includes name (drop_included_by name st)) <$> reg in
      py.Return (true, reg)
  end.

(** The graph of [test_unregister_cleans_up_includes_relationships],
    with one edge ([stray]) recorded on the parent's side only. *)
Definition family : gmap string BundleState :=
  <["parent" := {| source := "git+https://github.com/example/parent@main";
                   includes := ["child-a"; "child-b"; "stray"; "gone"];
                   included_by := ["top"] |}]>
  (<["child-a" := {| source := "git+https://github.com/example/child-a@main";
                     includes := []; included_by := ["parent"] |}]>
  (<["child-b" := {| source := "git+https://github.com/example/child-b@main";
                     includes := []; included_by := ["parent"; "top"] |}]>
  (<["stray" := {| source := "git+https://github.com/example/stray@main";
                   includes := []; included_by := [] |}]>
  (<["top" := {| source := "git+https://github.com/example/top@main";
                 includes := ["parent"; "child-b"]; included_by := [] |}]> ∅)))).

End registry.

(* ===================================================================== *)
(** ** Runs of [add_file] with their answers                              *)
(* ===================================================================== *)

Module dedup_runs.
Import deduplicator.

(** What a loader sees of a sequence of [add_file(path, content)] calls:
    the answers in order, and the deduplicator the last call leaves. *)
Fixpoint add_files_answers (self : ContentDeduplicator) (calls : list (Path * string))
    : py.result (list bool * ContentDeduplicator) :=
  match calls with
  | [] => py.Return ([], self)
  | (path, content) :: calls' =>
      try! r := add_file self path content in
      try! rest := add_files_answers r.2 calls' in
      py.Return (r.1 :: rest.1, rest.2)
  end.

End dedup_runs.

(* ===================================================================== *)
(** ** modules/hooks-deprecation: the deprecation hook                    *)
(* ===================================================================== *)

Module deprecation.

(** [needle in haystack] on [str]. *)
Fixpoint str_in (needle haystack : string) : bool :=
  py.startswith needle haystack
  || match haystack with
     | EmptyString => false
     | String _ rest => str_in needle rest
     end.

(** [datetime.date]; dates compare by year, month, day. *)
Record date : Type := mkDate { year : nat; month : nat; day : nat }.

Definition date_lt (a b : date) : bool :=
  (year a <? year b)
  || ((year a =? year b)
      && ((month a <? month b) || ((month a =? month b) && (day a <? day b)))).

Definition digit (n : nat) : ascii :=
  nth (n mod 10) (list_ascii_of_string "0123456789") "0"%char.

(** The last [width] decimal digits of [n], zero-padded: the [%04d] and
    [%02d] of [isoformat] on a date's fields (a year has at most four
    digits, a month and a day at most two). *)
Fixpoint digits (width n : nat) : string :=
  match width with
  | O => EmptyString
  | S w => digits w (n / 10) +:+ String (digit n) EmptyString
  end.

(** [d.isoformat()] *)
Definition isoformat (d : date) : string :=
  digits 4 (year d) +:+ "-" +:+ digits 2 (month d) +:+ "-" +:+ digits 2 (day d).

(** What the hook asks of its surroundings: the calendar, the date
    parser, and the [.amplifier] trees it scans. *)
Record host : Type := mkHost {
  today : date;                             (* date.today() *)
  fromisoformat : string -> option date;    (* date.fromisoformat; None is ValueError *)
  is_dir : Path -> bool;                    (* p.is_dir() *)
  rglob_yaml : Path -> list Path;           (* p.rglob("*.yaml"), in order *)
  read_text : Path -> option string         (* None: OSError or UnicodeDecodeError *)
}.

Record DeprecationConfig : Type := mkConfig {
  bundle_name : string;
  message : string;
  replacement : option string;
  migration : option string;
  severity : string;
  sunset_date : option date
}.

(** The text of a configuration value that is used as a condition:
    [None] and the empty string count as false. *)
Definition truthy (v : option string) : option string :=
  match v with
  | Some EmptyString => None
  | other => other
  end.

(** [str(v)] for a value that is a string or [None]. *)
Definition str_of (v : option string) : string :=
  match v with Some s => s | None => "None" end.

(** [raw.get(key)]: a missing key and a stored [None] both give [None]. *)
Definition get (raw : gmap string (option string)) (key : string) : option string :=
  match raw !! key with
  | Some v => v
  | None => None
  end.

(** [DeprecationConfig.from_dict(raw)], on a dictionary whose values are
    strings or [None]. *)
Definition from_dict (h : host) (raw : gmap string (option string))
    : py.result DeprecationConfig :=
  match truthy (get raw "bundle_name") with
  | None => py.Raise (py.ValueError "bundle_name is required in deprecation hook config")
  | Some bundle_name =>
  match truthy (get raw "message") with
  | None => py.Raise (py.ValueError "message is required in deprecation hook config")
  | Some message =>
  let severity := match raw !! "severity" with Some v => v | None => Some "warning" end in
  if negb (bool_decide (severity ∈ [Some "warning"; Some "info"])) then
    py.Raise (py.ValueError
      ("severity must be 'warning' or 'info', got '" +:+ str_of severity +:+ "'"))
  else
    try! sunset_date :=
      match truthy (get raw "sunset_date") with
      | Some raw_date =>
          match fromisoformat h raw_date with
          | Some d => py.Return (Some d)
          | None =>
              py.Raise (py.ValueError
                ("sunset_date must be YYYY-MM-DD format, got '" +:+ raw_date +:+ "'"))
          end
      | None => py.Return None
      end in
    py.Return {| bundle_name := bundle_name;
                 message := message;
                 replacement := get raw "replacement";
                 migration := get raw "migration";
                 severity := str_of severity;
                 sunset_date := sunset_date |}
  end end.

(** One search directory of [find_source_files]: the inner loop over
    [amp_dir.rglob("*.yaml")]; a file that cannot be read or decoded is
    skipped. *)
Fixpoint scan_files (h : host) (bundle_name : string) (yaml_files : list Path)
    (found : list string) : list string :=
  match yaml_files with
  | [] => found
  | yaml_file :: rest =>
      match read_text h yaml_file with
      | Some content =>
          if str_in bundle_name content
          then scan_files h bundle_name rest (found ++ [str yaml_file])
          else scan_files h bundle_name rest found
      | None => scan_files h bundle_name rest found
      end
  end.

Fixpoint scan_dirs (h : host) (bundle_name : string) (search_dirs : list Path)
    (found : list string) : list string :=
  match search_dirs with
  | [] => found
  | base_dir :: rest =>
      let amp_dir := truediv base_dir ".amplifier" in
      if negb (is_dir h amp_dir) then scan_dirs h bundle_name rest found
      else scan_dirs h bundle_name rest
             (scan_files h bundle_name (rglob_yaml h amp_dir) found)
  end.

Definition find_source_files (h : host) (bundle_name : string)
    (search_dirs : list Path) : list string :=
  scan_dirs h bundle_name search_dirs [].

Definition effective_severity (h : host) (config : DeprecationConfig) : string :=
  match sunset_date config with
  | Some sunset =>
      if date_lt sunset (today h) then
        if String.eqb (severity config) "info" then "warning"
        else if String.eqb (severity config) "warning" then "urgent"
        else severity config
      else severity config
  | None => severity config
  end.

Definition build_warning_text (config : DeprecationConfig) (severity : string)
    (source_files : list string) : string :=
  let header :=
    if String.eqb severity "urgent"
    then "URGENT DEPRECATION WARNING: " +:+ bundle_name config
    else "DEPRECATION WARNING: " +:+ bundle_name config in
  let lines := [header; ""; message config] in
  let lines :=
    match truthy (replacement config) with
    | Some r => lines ++ ["Replacement: " +:+ r]
    | None => lines
    end in
  let lines :=
    match sunset_date config with
    | Some d => lines ++ ["Sunset date: " +:+ isoformat d]
    | None => lines
    end in
  let lines :=
    match source_files with
    | [] => lines
    | _ => (lines ++ [""; "Found in:"]) ++ ((fun path => "  - " +:+ path) <$> source_files)
    end in
  let lines :=
    match truthy (migration config) with
    | Some m => lines ++ [""; "Migration steps:"; m]
    | None => lines
    end in
  py.join (String "010"%char EmptyString) lines.

Definition build_user_message (config : DeprecationConfig) (severity : string) : string :=
  let prefix := if String.eqb severity "urgent" then "URGENT: " else "" in
  let msg := prefix +:+ "Deprecated bundle '" +:+ bundle_name config +:+ "': "
             +:+ message config in
  match truthy (replacement config) with
  | Some r => msg +:+ " → Use '" +:+ r +:+ "' instead."
  | None => msg
  end.

(** The payload of the [deprecation:warning] event. *)
Record warning_event : Type := mkEvent {
  event_bundle_name : string;
  event_replacement : option string;
  event_severity : string;
  event_source_files : list string
}.



(** [hooks] is the coordinator's hook registry; [emit] is what awaiting
    [hooks.emit(name, data)] gives, an exception included. *)
Record DeprecationHook : Type := mkHook {
  config : DeprecationConfig;
  emit : string -> warning_event -> py.result unit;
  search_dirs : list Path;
  _fired : bool
}.

(** [DeprecationHook(config, hooks, search_dirs)] *)
Definition init (config : DeprecationConfig)
    (emit : string -> warning_event -> py.result unit)
    (search_dirs : option (list Path)) : DeprecationHook :=
  {| config := config; emit := emit;
     search_dirs := match search_dirs with Some d => d | None => [] end;
     _fired := false |}.



(** A registration made through [coordinator.hooks.register]. *)
Record registration : Type := mkRegistration {
  reg_event : string;
  reg_handler : DeprecationHook;
  reg_priority : Z;
  reg_name : string
}.

(** The coordinator, as far as [mount] uses it. *)
Record coordinator : Type := mkCoordinator {
  get_capability : string -> option string;
  hooks_emit : string -> warning_event -> py.result unit;
  registered : list registration
}.

Record module_config : Type := mkModuleConfig {
  meta_bundle_name : string;
  meta_replacement : option string;
  meta_severity : string;
  meta_sunset_date : option string
}.

Record metadata : Type := mkMetadata {
  meta_name : string;
  meta_version : string;
  meta_description : string;
  meta_config : module_config
}.

(** [mount(coordinator, config)]: the metadata, or the exception, with
    the coordinator as the call leaves it.  [Path.home()] is
    [Path("~").expanduser()]. *)
Definition mount (fs : filesystem) (h : host) (c : coordinator)
    (config : option (gmap string (option string)))
    : py.result metadata * coordinator :=
  match from_dict h (match config with Some raw => raw | None => ∅ end) with
  | py.Raise e => (py.Raise e, c)
  | py.Return parsed =>
      let working_dir_str := get_capability c "session.working_dir" in
      let search_dirs :=
        match truthy working_dir_str with
        | Some wd => [of_str wd]
        | None => []
        end in
      let search_dirs := search_dirs ++ [cwd fs] in
      match mention_resolver.expanduser fs (of_str "~") with
      | py.Raise e => (py.Raise e, c)
      | py.Return home =>
          let search_dirs := search_dirs ++ [home] in
          let hook := init parsed (hooks_emit c) (Some search_dirs) in
          let c := {| get_capability := get_capability c;
                      hooks_emit := hooks_emit c;
                      registered := registered c ++
                        [{| reg_event := "session:start"; reg_handler := hook;
                            reg_priority := 10; reg_name := "deprecation" |}] |} in
          (py.Return
             {| meta_name := "hooks-deprecation";
                meta_version := "0.1.0";
                meta_description := "Deprecation warning for " +:+ bundle_name parsed;
                meta_config :=
                  {| meta_bundle_name := bundle_name parsed;
                     meta_replacement := replacement parsed;
                     meta_severity := severity parsed;
                     meta_sunset_date := isoformat <$> sunset_date parsed |} |},
           c)
      end
  end.

(** A host for running the definitions: the strict [YYYY-MM-DD] reading
    of two dates, and one [.amplifier] tree under [/work]. *)
Definition sample_host : host :=
  {| today := mkDate 2026 6 1;
     fromisoformat := fun s =>
       if String.eqb s "2026-06-01" then Some (mkDate 2026 6 1)
       else if String.eqb s "2025-12-31" then Some (mkDate 2025 12 31)
       else None;
     is_dir := fun p => bool_decide (p = of_str "/work/.amplifier");
     rglob_yaml := fun p =>
       if bool_decide (p = of_str "/work/.amplifier")
       then [of_str "/work/.amplifier/settings.yaml";
             of_str "/work/.amplifier/locked.yaml";
             of_str "/work/.amplifier/bundles/extra.yaml"]
       else [];
     read_text := fun p =>
       if bool_decide (p = of_str "/work/.amplifier/settings.yaml")
       then Some "includes: [lsp-python, python-dev]"
       else if bool_decide (p = of_str "/work/.amplifier/bundles/extra.yaml")
       then Some "bundle: other"
       else None |}.

Definition sample_raw : gmap string (option string) :=
  <["bundle_name" := Some "lsp-python"]>
  (<["message" := Some "lsp-python is deprecated"]>
  (<["replacement" := Some "python-dev"]>
  (<["sunset_date" := Some "2025-12-31"]> ∅))).

Definition sample_config : DeprecationConfig :=
  {| bundle_name := "lsp-python"; message := "lsp-python is deprecated";
     replacement := Some "python-dev"; migration := None;
     severity := "warning"; sunset_date := Some (mkDate 2025 12 31) |}.

Definition sample_coordinator : coordinator :=
  {| get_capability := fun name =>
       if String.eqb name "session.working_dir" then Some "/work" else None;
     hooks_emit := fun _ _ => py.Return tt;
     registered := [] |}.

End deprecation.

(* ===================================================================== *)
(** ** Path operations that can fail                                      *)
(* ===================================================================== *)

Module posix.

(** What a path operation of the interpreter raises by itself:
    [OSError] from the system call behind [exists()] and [is_file()]
    (a name over [NAME_MAX], a directory that may not be searched),
    [ValueError] from [resolve()] on a NUL byte, [RuntimeError] from
    [resolve()] on a loop of links and from [expanduser()]. *)
Inductive fault : Type :=
| OSError (errno : Z) (strerror : string)
| ValueError (msg : string)
| RuntimeError (msg : string).

(** The answer of one path operation. *)
Inductive reply (A : Type) : Type :=
| Answer (a : A)
| Fault (f : fault).
Arguments Answer {A} a.
Arguments Fault {A} f.

(** How a call of the code ends: it returns, it raises an exception of
    its own, or the exception of a path operation passes through it. *)
Inductive outcome (A : Type) : Type :=
| Returns (a : A)
| Raises (e : py.exn)
| Faults (f : fault).
Arguments Returns {A} a.
Arguments Raises {A} e.
Arguments Faults {A} f.

Definition ask {A B : Type} (r : reply A) (k : A -> outcome B) : outcome B :=
  match r with
  | Answer a => k a
  | Fault f => Faults f
  end.

Definition bind {A B : Type} (m : outcome A) (k : A -> outcome B) : outcome B :=
  match m with
  | Returns a => k a
  | Raises e => Raises e
  | Faults f => Faults f
  end.

(** A result of the exception-free reading, as an outcome. *)
Definition of_result {A : Type} (m : py.result A) : outcome A :=
  match m with
  | py.Return a => Returns a
  | py.Raise e => Raises e
  end.

(** The operating system, each call with the exception it may raise. *)
Record system : Type := mkSystem {
  sys_cwd : Path;                            (* Path.cwd() *)
  sys_realpath : string -> reply string;     (* what p.resolve() obtains *)
  sys_exists : Path -> reply bool;           (* p.exists() *)
  sys_is_file : Path -> reply bool;          (* p.is_file() *)
  sys_home_of : string -> option string      (* home directory of a user *)
}.

(** A [filesystem] is a system none of whose operations fails. *)
Definition of_filesystem (fs : filesystem) : system :=
  {| sys_cwd := cwd fs;
     sys_realpath := fun s => Answer (os_realpath fs s);
     sys_exists := fun p => Answer (path_exists fs p);
     sys_is_file := fun p => Answer (path_is_file fs p);
     sys_home_of := home_of fs |}.

(** [p.resolve()] *)
Definition resolve (sys : system) (p : Path) : reply Path :=
  match sys_realpath sys (str (if is_absolute p then p else joinpath (sys_cwd sys) p)) with
  | Answer s => Answer (of_str s)
  | Fault f => Fault f
  end.

(** Where an absolute path leads when none of its names is a symbolic
    link: each [..] steps back over the name before it, and stays at the
    root when there is none. *)
Fixpoint collapse (done todo : list string) : list string :=
  match todo with
  | [] => rev done
  | n :: todo' =>
      if String.eqb n ".." then collapse (List.tl done) todo'
      else collapse (n :: done) todo'
  end.

Definition location (p : Path) : Path :=
  {| root := root p; names := collapse [] (names p) |}.

End posix.

Notation "'ask!' x ':=' r 'in' k" := (posix.ask r (fun x => k))
  (at level 10, x name, r at level 100, k at level 200).
Notation "'run!' x ':=' m 'in' k" := (posix.bind m (fun x => k))
  (at level 10, x name, m at level 100, k at level 200).

(* ===================================================================== *)
(** ** sources/file.py over path operations that can fail                 *)
(* ===================================================================== *)

Module file_source_os.
Import posix.

Definition resolved_path (self : file_source.FileSourceHandler) (sys : system)
    (parsed : file_source.ParsedURI) : reply Path :=
  let path_str := file_source.path parsed in
  let resolved_path :=
    if py.startswith "./" path_str || py.startswith "../" path_str
    then truediv (file_source.base_path self) path_str
    else of_str path_str in
  posix.resolve sys resolved_path.

Definition _find_source_root (self : file_source.FileSourceHandler) (sys : system)
    (active_path cache_dir : Path) : outcome Path :=
  ask! cache_dir := posix.resolve sys cache_dir in
  let fallback :=
    ask! is_file := sys_is_file sys active_path in
    if is_file then Returns (parent active_path) else Returns active_path in
  match relative_to active_path cache_dir with
  | py.Return relative =>
      match parts relative with
      | repo_folder :: _ => Returns (truediv cache_dir repo_folder)
      | [] => fallback
      end
  | py.Raise (py.ValueError _) => fallback
  | py.Raise e => Raises e
  end.

Definition resolve (self : file_source.FileSourceHandler) (sys : system)
    (parsed : file_source.ParsedURI) (cache_dir : Path)
    : outcome file_source.ResolvedSource :=
  ask! resolved_path := resolved_path self sys parsed in
  let active_path := file_source.apply_subpath resolved_path parsed in
  ask! found := sys_exists sys active_path in
  if negb found then
    Raises (py.BundleNotFoundError ("File not found: " +:+ str active_path))
  else
    run! source_root := _find_source_root self sys active_path cache_dir in
    Returns {| file_source.active_path := active_path;
               file_source.source_root := source_root |}.

End file_source_os.

(* ===================================================================== *)
(** ** mentions/resolver.py over path operations that can fail            *)
(* ===================================================================== *)

Module mention_resolver_os.
Import posix.

(** [Path.expanduser] *)
Definition expanduser (sys : system) (p : Path) : reply Path :=
  match root p, names p with
  | Rel, first :: rest =>
      if py.startswith "~" first then
        let homedir :=
          match first with
          | String "~" user =>
              match sys_home_of sys user with Some home => home | None => first end
          | _ => first
          end in
        if py.startswith "~" homedir
        then Fault (RuntimeError "Could not determine home directory.")
        else Answer (joinpath (of_str homedir) {| root := Rel; names := rest |})
      else Answer p
  | _, _ => Answer p
  end.

Definition candidates (sys : system) (mention_body : string) : reply (Path * Path) :=
  if py.startswith "~" mention_body then
    match expanduser sys (of_str mention_body) with
    | Fault f => Fault f
    | Answer path =>
        match expanduser sys (of_str (mention_body +:+ ".md")) with
        | Fault f => Fault f
        | Answer path_md => Answer (path, path_md)
        end
    end
  else
    let cwd := sys_cwd sys in
    Answer (truediv cwd mention_body, truediv cwd (mention_body +:+ ".md")).

Definition resolve (self : mention_resolver.BaseMentionResolver) (sys : system)
    (mention : string) : outcome (option Path) :=
  if negb (py.startswith "@" mention) then Returns None
  else
    let mention_body := py.tail mention in
    if py.contains ":" mention_body then
      match py.split1 ":" mention_body with
      | [namespace; name] =>
          match mention_resolver.bundles self !! namespace with
          | Some bundle => Returns (mention_resolver.resolve_context_path bundle name)
          | None => Returns None
          end
      | _ => Raises (py.ValueError "not enough values to unpack")
      end
    else
      ask! c := candidates sys mention_body in
      let '(path, path_md) := c in
      ask! found := sys_exists sys path in
      if found then Returns (Some path)
      else
        ask! found_md := sys_exists sys path_md in
        if found_md then Returns (Some path_md) else Returns None.

End mention_resolver_os.

(* ===================================================================== *)
(** ** Samples for the properties below                                   *)
(* ===================================================================== *)

Module cases.
Import posix.

(** [count] copies of the letter [a]. *)
Fixpoint letters (count : nat) : string :=
  match count with
  | O => EmptyString
  | S k => String "a" (letters k)
  end.

Definition too_long (p : Path) : bool :=
  existsb (fun n => 255 <? String.length n) (names p).

(** The sample file system as Linux serves it: a name of more than 255
    bytes makes [stat] fail with [ENAMETOOLONG], which [exists()] and
    [is_file()] raise as [OSError], and [resolve()] refuses a NUL byte. *)
Definition strict (fs : filesystem) : system :=
  {| sys_cwd := cwd fs;
     sys_realpath := fun s =>
       if py.contains "000" s then Fault (ValueError "embedded null byte")
       else Answer (os_realpath fs s);
     sys_exists := fun p =>
       if too_long p then Fault (OSError 36 "File name too long")
       else Answer (path_exists fs p);
     sys_is_file := fun p =>
       if too_long p then Fault (OSError 36 "File name too long")
       else Answer (path_is_file fs p);
     sys_home_of := home_of fs |}.

Definition repo_system : system := strict sample.repo_fs.

(** A registry in which [x] names [gone-soon] on both of its lists and
    [gone-soon] names nobody. *)
Definition one_sided : gmap string registry.BundleState :=
  <["x" := {| registry.source := "git+https://github.com/example/x@main";
              registry.includes := ["gone-soon"];
              registry.included_by := ["gone-soon"] |}]>
  (<["gone-soon" := {| registry.source := "git+https://github.com/example/gone@main";
                       registry.includes := [];
                       registry.included_by := [] |}]> ∅).




End cases.

(* ===================================================================== *)
(** * Properties                                                          *)
(* ===================================================================== *)

(** ** Strings and paths *)

Section path_facts.

Lemma eqb_eq_true (a b : string) : String.eqb a b = true <-> a = b.
Proof. apply String.eqb_eq. Qed.

Lemma split_nonempty sep s : py.split sep s <> [].
Proof. destruct s as [|a s]; simpl; [done|]. destruct (Ascii.eqb a sep); [done|].
       destruct (py.split sep s); done. Qed.

(** No piece of a split holds the separator. *)
Lemma split_pieces sep s :
  Forall (fun w => py.contains sep w = false) (py.split sep s).
Proof.
  induction s as [|a s IH]; simpl.
  - by repeat constructor.
  - destruct (Ascii.eqb a sep) eqn:E.
    + by constructor.
    + destruct (py.split sep s) as [|w ws]; simpl.
      * repeat constructor. simpl. by rewrite E.
      * inversion IH; subst. constructor; [|done]. simpl. by rewrite E.
Qed.

(** A string without the separator is its own single piece. *)
Lemma split_whole sep s : py.contains sep s = false -> py.split sep s = [s].
Proof.
  induction s as [|a s IH]; simpl; [done|].
  destruct (Ascii.eqb a sep); [done|]. intros H. by rewrite (IH H).
Qed.

Lemma of_str_names s : Forall is_name (names (of_str s)).
Proof.
  unfold of_str; simpl. apply Forall_forall. intros n Hn.
  apply list_elem_of_In, filter_In in Hn as [Hin Hk]. split; [done|].
  pose proof (split_pieces "/" s) as Hall. rewrite Forall_forall in Hall.
  by apply Hall, list_elem_of_In.
Qed.

Lemma of_str_name n : is_name n -> of_str n = {| root := Rel; names := [n] |}.
Proof.
  intros [Hk Hc]. unfold of_str. rewrite (split_whole _ _ Hc). simpl. rewrite Hk.
  f_equal. destruct n as [|a n]; [done|]. simpl in Hc.
  destruct (Ascii.eqb a "/") eqn:E; [done|].
  unfold parse_anchor. destruct a as [[] [] [] [] [] [] [] []]; try done.
Qed.

Lemma joinpath_names p q :
  Forall is_name (names p) -> Forall is_name (names q) ->
  Forall is_name (names (joinpath p q)).
Proof.
  intros Hp Hq. unfold joinpath. destruct (root q); simpl; [|done..].
  by apply Forall_app.
Qed.

Lemma truediv_name p n :
  is_name n -> truediv p n = {| root := root p; names := names p ++ [n] |}.
Proof. intros H. unfold truediv. by rewrite (of_str_name _ H). Qed.

Lemma strip_prefix_app pre l rest :
  strip_prefix pre l = Some rest -> l = pre ++ rest.
Proof.
  revert l. induction pre as [|a pre IH]; intros [|b l]; simpl; try congruence.
  destruct (String.eqb a b) eqn:E; [|done]. apply eqb_eq_true in E as ->.
  intros H. by rewrite (IH _ H).
Qed.


Lemma is_relative_to_refl p : is_relative_to p p.
Proof. split; [done|]. exists []. by rewrite app_nil_r. Qed.

Lemma is_relative_to_parent p : is_relative_to p (parent p).
Proof.
  split; [done|]. simpl. destruct (names p) as [|n ns] eqn:E using rev_ind.
  - by exists [].
  - exists [n]. by rewrite removelast_last.
Qed.

Lemma startswith_slash s : py.startswith "/" s = false -> parse_anchor s = Rel.
Proof.
  destruct s as [|a s]; [done|]. simpl.
  destruct a as [[] [] [] [] [] [] [] []]; try done.
Qed.

End path_facts.

(** ** sources/file.py *)

Section file_source_facts.
Import file_source.

Lemma apply_subpath_names rp parsed :
  Forall is_name (names rp) -> Forall is_name (names (apply_subpath rp parsed)).
Proof.
  intros H. unfold apply_subpath. destruct (truthy (subpath parsed)); [|done].
  apply joinpath_names; [done|apply of_str_names].
Qed.


(** [_find_source_root] always returns, and what it returns is the active
    path or a path above it. *)
Lemma find_source_root_above self fs active cache_dir :
  Forall is_name (names active) ->
  exists r, _find_source_root self fs active cache_dir = py.Return r
            /\ is_relative_to active r.
Proof.
  intros Hnames. unfold _find_source_root.
  set (cache := pathlib.resolve fs cache_dir).
  assert (Hfb : exists r,
    (if path_is_file fs active then py.Return (parent active) else py.Return active)
      = py.Return r /\ is_relative_to active r).
  { destruct (path_is_file fs active); eexists; (split; [done|]).
    - apply is_relative_to_parent.
    - apply is_relative_to_refl. }
  unfold relative_to. case_bool_decide as Hroot; [|done].
  destruct (strip_prefix (names cache) (names active)) as [rest|] eqn:Hs; [|done].
  apply strip_prefix_app in Hs. unfold parts; simpl.
  destruct rest as [|repo_folder rest]; [done|].
  assert (is_name repo_folder) as Hn.
  { rewrite Forall_forall in Hnames. apply Hnames. rewrite Hs. apply elem_of_app. right. left. }
  rewrite (truediv_name _ _ Hn). eexists; split; [done|].
  split; [done|]. simpl. exists rest. by rewrite Hs, <- app_assoc.
Qed.

(** Outside the cache the root is the active path itself (its parent
    for a regular file). *)
Lemma find_source_root_outside self fs active cache_dir :
  py.raises (relative_to active (pathlib.resolve fs cache_dir)) = true ->
  _find_source_root self fs active cache_dir
  = py.Return (if path_is_file fs active then parent active else active).
Proof.
  unfold _find_source_root, relative_to.
  case_bool_decide; [|by destruct (path_is_file fs active)].
  destruct (strip_prefix _ _); [done|]. by destruct (path_is_file fs active).
Qed.


(** C1, at the input of [test_subdirectory_bundle_gets_source_base_paths]:
    for the URI [file:///tmp/t#subdirectory=behaviors/recipes], with the
    repository [/tmp/t] outside the cache [/tmp/t/home/cache], [resolve]
    returns the subdirectory itself as [source_root], not the repository
    root [/tmp/t] the test and the comment in [resolve] ask for. *)
Theorem resolve_subdirectory_outside_cache :
  let self := init sample.repo_fs None in
  let repo_root := of_str "/tmp/t" in
  path_exists sample.repo_fs (truediv repo_root "behaviors/recipes") = true
  /\ path_is_file sample.repo_fs (truediv repo_root "behaviors/recipes") = false
  /\ resolve self sample.repo_fs (sample.uri "/tmp/t" (Some "behaviors/recipes"))
       (of_str "/tmp/t/home/cache")
     = py.Return {| active_path := of_str "/tmp/t/behaviors/recipes";
                    source_root := of_str "/tmp/t/behaviors/recipes" |}
  /\ of_str "/tmp/t/behaviors/recipes" <> repo_root.
Proof. vm_compute. repeat split; done. Qed.



End file_source_facts.

(** ** Dictionaries and first-seen order *)

Section dict_facts.
Context {V : Type}.
Implicit Types (d : list (string * V)) (k : string) (v : V).

Lemma get_setitem_eq k v d : dict.get k (dict.setitem k v d) = Some v.
Proof.
  induction d as [|[k' v'] d IH]; csimpl.
  - by rewrite String.eqb_refl.
  - destruct (String.eqb k k') eqn:E; csimpl; by rewrite E.
Qed.

Lemma get_setitem_ne k k' v d :
  k <> k' -> dict.get k' (dict.setitem k v d) = dict.get k' d.
Proof.
  intros Hne. induction d as [|[k0 v0] d IH]; csimpl.
  - destruct (String.eqb k' k) eqn:E; [|done]. apply eqb_eq_true in E. congruence.
  - destruct (String.eqb k k0) eqn:E; csimpl.
    + apply eqb_eq_true in E as <-.
      destruct (String.eqb k' k) eqn:E'; [|done]. apply eqb_eq_true in E'. congruence.
    + by rewrite IH.
Qed.

Lemma get_None_keys k d : dict.get k d = None <-> k ∉ dict.keys d.
Proof.
  unfold dict.keys. induction d as [|[k' v'] d IH]; csimpl.
  - split; [intros _; apply not_elem_of_nil|done].
  - rewrite not_elem_of_cons. destruct (String.eqb k k') eqn:E.
    + apply eqb_eq_true in E. split; [done|]. intros [? _]. done.
    + apply String.eqb_neq in E. rewrite IH. tauto.
Qed.

Lemma contains_keys k d : dict.contains k d = true <-> k ∈ dict.keys d.
Proof.
  unfold dict.contains. pose proof (get_None_keys k d) as H.
  destruct (dict.get k d).
  - split; [|done]. intros _. destruct (decide (k ∈ dict.keys d)); [done|].
    by apply H in n.
  - split; [done|]. intros Hin. by apply H in Hin.
Qed.

Lemma contains_false_keys k d : dict.contains k d = false <-> k ∉ dict.keys d.
Proof. rewrite <- contains_keys. by destruct (dict.contains k d). Qed.

Lemma keys_setitem k v d :
  dict.keys (dict.setitem k v d)
  = if dict.contains k d then dict.keys d else dict.keys d ++ [k].
Proof.
  unfold dict.keys, dict.contains. induction d as [|[k' v'] d IH]; csimpl; [done|].
  destruct (String.eqb k k') eqn:E; csimpl; [done|].
  rewrite IH. by destruct (dict.get k d).
Qed.

Lemma get_of_elem k v d :
  NoDup (dict.keys d) -> (k, v) ∈ d -> dict.get k d = Some v.
Proof.
  unfold dict.keys. induction d as [|[k' v'] d IH]; csimpl.
  - intros _ H. by apply elem_of_nil in H.
  - intros Hnd Hin. apply NoDup_cons in Hnd as [Hk' Hnd].
    apply elem_of_cons in Hin as [Heq|Hin].
    + inversion Heq; subst. by rewrite String.eqb_refl.
    + destruct (String.eqb k k') eqn:E; [|by apply IH].
      apply eqb_eq_true in E as ->. exfalso. apply Hk'.
      apply list_elem_of_fmap. by exists (k', v).
Qed.

End dict_facts.

Section first_seen_facts.
Import deduplicator.
Context {A : Type} `{EqDecision A}.
Implicit Types (l : list A) (x : A).

Lemma elem_of_bfilter (f : A -> bool) x l :
  x ∈ List.filter f l <-> x ∈ l /\ f x = true.
Proof. rewrite !list_elem_of_In. apply filter_In. Qed.

Lemma elem_of_first_seen x l : x ∈ first_seen l <-> x ∈ l.
Proof.
  induction l as [|a l IH]; simpl; [done|].
  rewrite !elem_of_cons, elem_of_bfilter, IH.
  destruct (decide (x = a)) as [->|Hne]; [tauto|].
  rewrite bool_decide_eq_false_2 by done. simpl. tauto.
Qed.

Lemma NoDup_bfilter (f : A -> bool) l : NoDup l -> NoDup (List.filter f l).
Proof.
  induction 1 as [|a l Hin Hnd IH]; simpl; [constructor|].
  destruct (f a); [|done]. constructor; [|done].
  rewrite elem_of_bfilter. tauto.
Qed.

Lemma NoDup_first_seen l : NoDup (first_seen l).
Proof.
  induction l as [|a l IH]; simpl; constructor.
  - rewrite elem_of_bfilter. intros [_ H]. by rewrite bool_decide_eq_true_2 in H.
  - by apply NoDup_bfilter.
Qed.

(** One more element at the end is appended when it is new and dropped
    when it has been seen. *)
Lemma first_seen_snoc l x :
  first_seen (l ++ [x]) = if bool_decide (x ∈ l) then first_seen l
                          else first_seen l ++ [x].
Proof.
  induction l as [|a l IH]; simpl.
  - done.
  - rewrite IH. destruct (decide (x = a)) as [->|Hne].
    + rewrite (bool_decide_eq_true_2 (a ∈ a :: l)) by left.
      case_bool_decide; [done|]. rewrite List.filter_app. simpl.
      rewrite bool_decide_eq_true_2 by done. simpl. by rewrite app_nil_r.
    + case_bool_decide as Hin.
      * by rewrite (bool_decide_eq_true_2 (x ∈ a :: l)) by (by right).
      * rewrite (bool_decide_eq_false_2 (x ∈ a :: l))
          by (rewrite elem_of_cons; tauto).
        rewrite List.filter_app. simpl.
        by rewrite bool_decide_eq_false_2 by done.
Qed.

End first_seen_facts.

(** ** mentions/deduplicator.py *)

Section deduplicator_facts.
Import deduplicator.

Local Abbreviation hash := hashlib.sha256_hexdigest.

Lemma tracks_init : tracks [] init.
Proof. by split. Qed.

Lemma paths_of_snoc h calls p c :
  paths_of h (calls ++ [(p, c)])
  = paths_of h calls ++ (if String.eqb (hash c) h then [p] else []).
Proof.
  unfold paths_of. rewrite List.filter_app, fmap_app. f_equal.
  simpl. by destruct (String.eqb (hash c) h).
Qed.

Lemma paths_of_unseen h calls : h ∉ hash <$> calls.*2 -> paths_of h calls = [].
Proof.
  unfold paths_of. induction calls as [|[p c] calls IH]; csimpl; [done|].
  rewrite not_elem_of_cons. intros [Hne Hnin].
  destruct (String.eqb (hash c) h) eqn:E.
  - apply eqb_eq_true in E. congruence.
  - by apply IH.
Qed.

Lemma elem_of_paths_of p h calls :
  p ∈ paths_of h calls <-> exists c, (p, c) ∈ calls /\ hash c = h.
Proof.
  unfold paths_of. rewrite list_elem_of_fmap. split.
  - intros ([p' c] & -> & Hin). apply list_elem_of_In, filter_In in Hin as [Hin E].
    exists c. split; [by apply list_elem_of_In|by apply eqb_eq_true].
  - intros (c & Hin & Hh). exists (p, c). split; [done|].
    apply list_elem_of_In, filter_In. split; [by apply list_elem_of_In|].
    by apply eqb_eq_true.
Qed.

Lemma snoc_hashes (calls : list (Path * string)) p c :
  hash <$> (calls ++ [(p, c)]).*2 = (hash <$> calls.*2) ++ [hash c].
Proof. by rewrite !fmap_app. Qed.

(** One call of [add_file] on a deduplicator that tracks [calls]. *)
Lemma add_file_step calls self p c :
  tracks calls self ->
  exists self',
    add_file self p c
    = py.Return (negb (dict.contains (hash c) (_content_by_hash self)), self')
    /\ tracks (calls ++ [(p, c)]) self'.
Proof.
  intros [Hk Hs Hp Hc]. unfold add_file.
  destruct (dict.contains (hash c) (_content_by_hash self)) eqn:Hseen; simpl.
  - (* the hash is known *)
    assert (hash c ∈ hash <$> calls.*2) as Hin.
    { apply elem_of_first_seen. rewrite <- Hk. by apply contains_keys. }
    assert (exists tracked, dict.get (hash c) (_paths_by_hash self) = Some tracked)
      as [tracked Hget].
    { destruct (dict.get (hash c) (_paths_by_hash self)) eqn:G; [by eexists|].
      apply get_None_keys in G. rewrite Hs in G. by apply contains_false_keys in G;
        rewrite G in Hseen. }
    unfold dict.getitem. rewrite Hget. simpl.
    pose proof (Hp _ _ Hget) as Htracked.
    assert (Hkeys : first_seen (hash <$> (calls ++ [(p, c)]).*2)
                    = first_seen (hash <$> calls.*2)).
    { rewrite snoc_hashes, first_seen_snoc. by rewrite bool_decide_eq_true_2. }
    assert (Hcont : forall h c0, dict.get h (_content_by_hash self) = Some c0 ->
              hash c0 = h /\ c0 ∈ (calls ++ [(p, c)]).*2).
    { intros h c0 G. destruct (Hc _ _ G) as [? ?]. split; [done|].
      rewrite fmap_app. apply elem_of_app. by left. }
    assert (Hother : forall h ps, h <> hash c ->
              dict.get h (_paths_by_hash self) = Some ps ->
              ps = first_seen (paths_of h (calls ++ [(p, c)]))).
    { intros h ps Hne G. rewrite paths_of_snoc.
      destruct (String.eqb (hash c) h) eqn:E.
      - apply eqb_eq_true in E. congruence.
      - rewrite app_nil_r. by apply Hp. }
    assert (Hsame : first_seen (paths_of (hash c) (calls ++ [(p, c)]))
                    = if bool_decide (p ∈ tracked) then tracked else tracked ++ [p]).
    { rewrite paths_of_snoc, String.eqb_refl, first_seen_snoc, Htracked.
      destruct (decide (p ∈ paths_of (hash c) calls)) as [Hi|Hi].
      - rewrite (bool_decide_eq_true_2 _ Hi).
        by rewrite bool_decide_eq_true_2 by (by apply elem_of_first_seen).
      - rewrite (bool_decide_eq_false_2 _ Hi).
        by rewrite bool_decide_eq_false_2 by (by rewrite elem_of_first_seen). }
    case_bool_decide as Hmem; simpl.
    + exists self. split; [done|]. split; [by rewrite Hkeys|done|..|done].
      intros h ps G. destruct (decide (h = hash c)) as [->|Hne]; [|by apply Hother].
      rewrite Hsame. congruence.
    + eexists. split; [done|]. split; simpl.
      * by rewrite Hkeys.
      * rewrite keys_setitem.
        assert (dict.contains (hash c) (_paths_by_hash self) = true) as ->; [|done].
        unfold dict.contains. by rewrite Hget.
      * intros h ps G. destruct (decide (h = hash c)) as [->|Hne].
        -- rewrite get_setitem_eq in G. rewrite Hsame. congruence.
        -- rewrite get_setitem_ne in G by done. by apply Hother.
      * done.
  - (* the hash is new *)
    assert (hash c ∉ hash <$> calls.*2) as Hnin.
    { rewrite <- (elem_of_first_seen (hash c)), <- Hk. by apply contains_false_keys. }
    eexists. split; [done|]. split; simpl.
    + rewrite keys_setitem, Hseen, Hk, snoc_hashes, first_seen_snoc.
      by rewrite bool_decide_eq_false_2.
    + rewrite !keys_setitem, Hseen.
      assert (dict.contains (hash c) (_paths_by_hash self) = false) as ->.
      { apply contains_false_keys. rewrite Hs. by apply contains_false_keys. }
      by rewrite Hs.
    + intros h ps G. rewrite paths_of_snoc.
      destruct (decide (h = hash c)) as [->|Hne].
      * rewrite get_setitem_eq in G. rewrite String.eqb_refl.
        rewrite (paths_of_unseen _ _ Hnin). simpl. congruence.
      * rewrite get_setitem_ne in G by done.
        destruct (String.eqb (hash c) h) eqn:E.
        -- apply eqb_eq_true in E. congruence.
        -- rewrite app_nil_r. by apply Hp.
    + intros h c0 G. rewrite fmap_app. destruct (decide (h = hash c)) as [->|Hne].
      * rewrite get_setitem_eq in G. inversion G; subst. split; [done|].
        apply elem_of_app. right. by left.
      * rewrite get_setitem_ne in G by done. destruct (Hc _ _ G).
        split; [done|]. apply elem_of_app. by left.
Qed.

(** A run of [add_file] calls never raises and ends in a deduplicator
    that tracks all of them. *)
Lemma add_files_tracks before self calls :
  tracks before self ->
  exists self', add_files self calls = py.Return self'
                /\ tracks (before ++ calls) self'.
Proof.
  revert before self. induction calls as [|[p c] calls IH]; intros before self Ht.
  - exists self. by rewrite app_nil_r.
  - destruct (add_file_step _ _ p c Ht) as (self1 & Hadd & Ht1).
    destruct (IH _ _ Ht1) as (self' & Hrun & Ht').
    exists self'. simpl. rewrite Hadd. simpl. split; [done|].
    by rewrite <- app_assoc in Ht'.
Qed.

Lemma add_files_init calls :
  exists self, add_files init calls = py.Return self /\ tracks calls self.
Proof. apply (add_files_tracks [] init calls tracks_init). Qed.

Lemma tracked_paths calls self h :
  tracks calls self ->
  dict.contains h (_content_by_hash self) = true ->
  dict.get h (_paths_by_hash self) = Some (first_seen (paths_of h calls)).
Proof.
  intros Ht Hseen. destruct (dict.get h (_paths_by_hash self)) as [ps|] eqn:G.
  - f_equal. by apply (tracks_paths _ _ Ht).
  - apply get_None_keys in G. rewrite (tracks_same_keys _ _ Ht) in G.
    apply contains_false_keys in G. congruence.
Qed.

(** [collect] succeeds on items whose hashes all have a path list. *)
Lemma collect_items self items :
  (forall h c, (h, c) ∈ items -> is_Some (dict.get h (_paths_by_hash self))) ->
  exists files,
    collect self items = py.Return files
    /\ content_hash <$> files = items.*1
    /\ Forall (fun f => (content_hash f, content f) ∈ items
                        /\ dict.get (content_hash f) (_paths_by_hash self)
                           = Some (paths f)) files.
Proof.
  induction items as [|[h c] items IH]; intros Hall.
  - exists []. by repeat split.
  - destruct (Hall h c) as [ps Hps]; [by left|].
    destruct IH as (files & Hcol & Hhs & Hfs).
    { intros h' c' Hin. apply (Hall h' c'). by right. }
    eexists. simpl. unfold dict.getitem. rewrite Hps. simpl. rewrite Hcol. simpl.
    split; [done|]. split; [csimpl; by rewrite Hhs|].
    constructor; simpl; [split; [by left|done]|].
    eapply Forall_impl; [exact Hfs|]. intros f [Hin Hg]. split; [by right|done].
Qed.

(** C2: on a deduplicator reached by any calls, [add_file(p, c)] with an
    unseen hash returns [True] and records the content and [paths = [p]]
    under the hash; with a seen hash it returns [False], leaves the
    contents alone and appends [p] to the hash's paths only when [p] is
    not among them, so that the list stays duplicate-free and adding [p]
    again changes nothing. *)
Theorem add_file_new_or_duplicate calls p c :
  exists self,
    add_files init calls = py.Return self
    /\ (dict.contains (hash c) (_content_by_hash self) = false ->
        exists self',
          add_file self p c = py.Return (true, self')
          /\ dict.get (hash c) (_content_by_hash self') = Some c
          /\ dict.get (hash c) (_paths_by_hash self') = Some [p])
    /\ (dict.contains (hash c) (_content_by_hash self) = true ->
        exists ps self',
          dict.get (hash c) (_paths_by_hash self) = Some ps
          /\ add_file self p c = py.Return (false, self')
          /\ _content_by_hash self' = _content_by_hash self
          /\ dict.get (hash c) (_paths_by_hash self')
             = Some (if bool_decide (p ∈ ps) then ps else ps ++ [p])
          /\ NoDup (if bool_decide (p ∈ ps) then ps else ps ++ [p])
          /\ add_file self' p c = py.Return (false, self')).
Proof.
  destruct (add_files_init calls) as (self & Hrun & Ht).
  exists self. split; [done|]. split; intros Hseen.
  - eexists. unfold add_file. rewrite Hseen. simpl. split; [done|]. simpl.
    by rewrite !get_setitem_eq.
  - pose proof (tracked_paths _ _ _ Ht Hseen) as Hget.
    set (ps := first_seen (paths_of (hash c) calls)) in *.
    assert (NoDup ps) as Hnd by apply NoDup_first_seen.
    exists ps. unfold add_file. rewrite Hseen. simpl.
    unfold dict.getitem. rewrite Hget. simpl.
    case_bool_decide as Hmem; simpl.
    + exists self. repeat split; try done.
      rewrite Hseen. simpl. rewrite Hget. simpl.
      by rewrite bool_decide_eq_true_2.
    + eexists. split; [done|]. split; [done|]. simpl. split; [done|]. split.
      { by rewrite get_setitem_eq. }
      split.
      { apply NoDup_app. split; [done|]. split; [|apply NoDup_singleton].
        intros x Hx Hx'. apply list_elem_of_singleton in Hx'. congruence. }
      rewrite Hseen. simpl. rewrite get_setitem_eq. simpl.
      rewrite bool_decide_eq_true_2; [done|]. apply elem_of_app. right. by left.
Qed.

(** C7: after any calls, [get_unique_files] returns, without changing the
    deduplicator, one [ContextFile] per distinct hash (in the order the
    hashes were first seen); each file's [paths] are exactly the paths
    whose content had that hash, in first-seen order and without
    duplicates, and its [content] is a supplied content with that hash. *)
Theorem get_unique_files_one_per_hash calls :
  exists self files,
    add_files init calls = py.Return self
    /\ get_unique_files self = py.Return (files, self)
    /\ content_hash <$> files = first_seen (hash <$> calls.*2)
    /\ NoDup (content_hash <$> files)
    /\ (forall h, h ∈ content_hash <$> files <-> exists c, c ∈ calls.*2 /\ hash c = h)
    /\ Forall (fun f =>
         paths f = first_seen (paths_of (content_hash f) calls)
         /\ NoDup (paths f)
         /\ (forall p, p ∈ paths f
                       <-> exists c, (p, c) ∈ calls /\ hash c = content_hash f)
         /\ hash (content f) = content_hash f
         /\ content f ∈ calls.*2) files.
Proof.
  destruct (add_files_init calls) as (self & Hrun & Ht).
  assert (Hnd : NoDup (dict.keys (_content_by_hash self))).
  { rewrite (tracks_hashes _ _ Ht). apply NoDup_first_seen. }
  destruct (collect_items self (_content_by_hash self)) as (files & Hcol & Hhs & Hfs).
  { intros h c Hin. rewrite (tracked_paths calls self h Ht); [by eexists|].
    apply contains_keys. apply list_elem_of_fmap. by exists (h, c). }
  exists self, files. split; [done|]. split.
  { unfold get_unique_files. by rewrite Hcol. }
  fold (dict.keys (_content_by_hash self)) in Hhs.
  rewrite (tracks_hashes _ _ Ht) in Hhs.
  split; [done|]. split; [rewrite Hhs; apply NoDup_first_seen|]. split.
  { intros h. rewrite Hhs, elem_of_first_seen, list_elem_of_fmap.
    split; intros (c & ? & ?); exists c; by split. }
  eapply Forall_impl; [exact Hfs|]. intros f [Hin Hget].
  pose proof (tracks_paths _ _ Ht _ _ Hget) as Hps.
  apply (get_of_elem _ _ _ Hnd) in Hin.
  destruct (tracks_content _ _ Ht _ _ Hin) as [Hh Hc].
  split; [done|]. split; [rewrite Hps; apply NoDup_first_seen|].
  split; [|done]. intros p. by rewrite Hps, elem_of_first_seen, elem_of_paths_of.
Qed.


Lemma add_file_new_or_duplicate_witness :
  exists self self',
    add_files init [(of_str "/a", "x")] = py.Return self
    /\ add_file self (of_str "/b") "x" = py.Return (false, self')
    /\ dict.get (hash "x") (_paths_by_hash self') = Some [of_str "/a"; of_str "/b"]
    /\ add_file self' (of_str "/b") "x" = py.Return (false, self').
Proof.
  destruct (add_file_new_or_duplicate [(of_str "/a", "x")] (of_str "/b") "x")
    as (self & Hrun & _ & Hdup).
  vm_compute in Hrun. injection Hrun as <-.
  destruct Hdup as (ps & self' & Hps & Hadd & _ & Hget & _ & Hagain);
    [vm_compute; reflexivity|].
  vm_compute in Hps. injection Hps as <-.
  eexists _, self'. split; [vm_compute; reflexivity|]. split; [exact Hadd|].
  split; [exact Hget|exact Hagain].
Defined.

(** The idempotence scenario of the specification: the same content from
    two paths, the first path once more, then the unique files. *)
Example add_same_content_twice :
  (try! a := add_file init (of_str "/docs/a.md") "x" in
   try! b := add_file a.2 (of_str "/docs/b.md") "x" in
   try! c := add_file b.2 (of_str "/docs/a.md") "x" in
   try! f := get_unique_files c.2 in
   py.Return (a.1, b.1, c.1, paths <$> f.1, content <$> f.1))
  = py.Return (true, false, false,
               [[of_str "/docs/a.md"; of_str "/docs/b.md"]], ["x"]).
Proof. vm_compute. reflexivity. Qed.

End deduplicator_facts.

(** ** mentions/resolver.py *)

Section mention_resolver_facts.
Import mention_resolver.

(** [split(sep, 1)] on a string that holds [sep] cuts at the first one. *)
Lemma split1_first sep s :
  py.contains sep s = true ->
  exists before after,
    py.split1 sep s = [before; after]
    /\ s = before +:+ String sep after
    /\ py.contains sep before = false.
Proof.
  induction s as [|a s IH]; simpl; [done|].
  destruct (Ascii.eqb a sep) eqn:E.
  - intros _. apply Ascii.eqb_eq in E as ->. by exists EmptyString, s.
  - intros H. destruct (IH H) as (before & after & -> & -> & Hb).
    exists (String a before), after. simpl. by rewrite E.
Qed.

(** C5: a mention whose body holds a [:] is cut at the first one into
    namespace and name; the answer is the registered bundle's
    [resolve_context_path(name)], or [None] when the namespace is not
    registered, and it is the same on every file system: nothing is
    looked up on disk. *)
Theorem resolve_namespace_mention self fs mention_body :
  py.contains ":" mention_body = true ->
  exists namespace name,
    mention_body = namespace +:+ ":" +:+ name
    /\ py.contains ":" namespace = false
    /\ resolve self fs (String "@" mention_body)
       = py.Return (match bundles self !! namespace with
                    | Some bundle => resolve_context_path bundle name
                    | None => None
                    end)
    /\ forall fs', resolve self fs' (String "@" mention_body)
                   = resolve self fs (String "@" mention_body).
Proof.
  intros Hcolon.
  destruct (split1_first _ _ Hcolon) as (namespace & name & Hsplit & Hbody & Hns).
  exists namespace, name. split; [done|]. split; [done|].
  assert (Hres : forall fs0, resolve self fs0 (String "@" mention_body)
            = py.Return (match bundles self !! namespace with
                         | Some bundle => resolve_context_path bundle name
                         | None => None
                         end)).
  { intros fs0. unfold resolve. simpl. rewrite Hcolon, Hsplit.
    by destruct (bundles self !! namespace). }
  split; [apply Hres|]. intros fs'. by rewrite !Hres.
Qed.

Lemma resolve_namespace_mention_witness :
  exists namespace name,
    "ghost:notes" = namespace +:+ ":" +:+ name
    /\ py.contains ":" namespace = false
    /\ resolve sample_resolver sample.repo_fs "@ghost:notes"
       = py.Return (match bundles sample_resolver !! namespace with
                    | Some bundle => resolve_context_path bundle name
                    | None => None
                    end)
    /\ forall fs', resolve sample_resolver fs' "@ghost:notes"
                   = resolve sample_resolver sample.repo_fs "@ghost:notes".
Proof.
  apply (resolve_namespace_mention sample_resolver sample.repo_fs "ghost:notes").
  reflexivity.
Defined.

Example resolve_registered_namespace :
  resolve sample_resolver sample.repo_fs "@foundation:shared"
  = py.Return (Some (of_str "/bundles/foundation/context/shared.md")).
Proof. vm_compute. reflexivity. Qed.

(** The file [ghost:notes] exists in the working directory and is not
    looked at. *)
Example resolve_unregistered_namespace :
  path_exists sample.repo_fs (truediv (cwd sample.repo_fs) "ghost:notes") = true
  /\ resolve sample_resolver sample.repo_fs "@ghost:notes" = py.Return None.
Proof. vm_compute. by split. Qed.

(** A colon-free body that does not start with [~]: the exact path in
    the working directory, then the same with [.md], then [None]; no
    exception. *)
Lemma resolve_cwd_mention self fs mention_body :
  py.contains ":" mention_body = false ->
  py.startswith "~" mention_body = false ->
  resolve self fs (String "@" mention_body)
  = py.Return
      (if path_exists fs (truediv (cwd fs) mention_body)
       then Some (truediv (cwd fs) mention_body)
       else if path_exists fs (truediv (cwd fs) (mention_body +:+ ".md"))
            then Some (truediv (cwd fs) (mention_body +:+ ".md"))
            else None).
Proof.
  intros Hcolon Htilde. unfold resolve, candidates.
  change (py.startswith "@" (String "@" mention_body)) with true.
  change (py.tail (String "@" mention_body)) with mention_body.
  rewrite Hcolon, Htilde. simpl.
  destruct (path_exists fs (truediv (cwd fs) mention_body)); [done|].
  by destruct (path_exists fs (truediv (cwd fs) (mention_body +:+ ".md"))).
Qed.

(** The mention fallback of the specification: [@notes] with only
    [notes.md] on disk. *)
Example resolve_notes_fallback :
  path_exists sample.repo_fs (truediv (cwd sample.repo_fs) "notes") = false
  /\ resolve sample_resolver sample.repo_fs "@notes"
     = py.Return (Some (of_str "/work/notes.md")).
Proof. vm_compute. by split. Qed.

(** C6, at the mention [@~]: the exact candidate, the caller's home
    directory [/root], exists, yet [resolve] raises [RuntimeError],
    because the [.md] candidate [~.md] is expanded (as the home of a user
    named [.md]) before either candidate is looked up.  The same happens
    for [@~ghost/notes], whose user is unknown. *)
Theorem resolve_home_mention_raises :
  py.contains ":" "~" = false
  /\ expanduser sample.repo_fs (of_str "~") = py.Return (of_str "/root")
  /\ path_exists sample.repo_fs (of_str "/root") = true
  /\ resolve sample_resolver sample.repo_fs "@~"
     = py.Raise (py.RuntimeError "Could not determine home directory.")
  /\ resolve sample_resolver sample.repo_fs "@~ghost/notes"
     = py.Raise (py.RuntimeError "Could not determine home directory.").
Proof. vm_compute. repeat split; reflexivity. Qed.

End mention_resolver_facts.

(** ** The bundle registry *)

Section registry_facts.
Import registry.







(** A state that names the removed bundle on its own side only is
    cleaned as well. *)
Example unregister_one_sided :
  match unregister "gone-soon" cases.one_sided with
  | py.Return (answer, reg') =>
      (answer, reg' !! "gone-soon",
       includes <$> reg' !! "x", included_by <$> reg' !! "x")
      = (true, None, Some [], Some [])
  | py.Raise _ => False
  end.
Proof. vm_compute. reflexivity. Qed.

(** The two clean-up tests of [TestUnregister], and the partial one. *)
Example unregister_parent_family :
  match unregister "parent" family with
  | py.Return (answer, reg') =>
      (answer, reg' !! "parent",
       included_by <$> reg' !! "child-a", included_by <$> reg' !! "child-b",
       included_by <$> reg' !! "stray", includes <$> reg' !! "top")
      = (true, None, Some [], Some ["top"], Some [], Some ["child-b"])
  | py.Raise _ => False
  end.
Proof. vm_compute. reflexivity. Qed.

End registry_facts.

(* ===================================================================== *)
(** * Further properties                                                  *)
(* ===================================================================== *)

(** ** sources/file.py: where the source root falls *)

Section source_root_facts.
Import file_source.


Lemma of_str_dot_slash s :
  py.startswith "/" s = false -> of_str (String "." (String "/" s)) = of_str s.
Proof.
  intros Hrel. unfold of_str. by rewrite (startswith_slash _ Hrel).
Qed.







(** X4: on a handler built without a base path (so that the base is the
    working directory), a relative path string and the same string with
    [./] put in front resolve to the same result. *)
Theorem resolve_dot_slash_on_default_base fs parsed parsed' cache_dir :
  is_absolute (cwd fs) = true ->
  py.startswith "/" (path parsed) = false ->
  path parsed' = String "." (String "/" (path parsed)) ->
  subpath parsed' = subpath parsed ->
  resolve (init fs None) fs parsed' cache_dir
  = resolve (init fs None) fs parsed cache_dir.
Proof.
  intros Hcwd Hrel Hpath Hsub.
  assert (Hrp : resolved_path (init fs None) fs parsed'
                = resolved_path (init fs None) fs parsed).
  { unfold resolved_path. rewrite Hpath.
    change (py.startswith "./" (String "." (String "/" (path parsed)))) with true.
    rewrite orb_true_l. unfold truediv. rewrite (of_str_dot_slash _ Hrel).
    destruct (py.startswith "./" (path parsed) || py.startswith "../" (path parsed));
      [done|].
    unfold pathlib.resolve, absolute. simpl cwd.
    assert (root (of_str (path parsed)) = Rel) as Hr.
    { unfold of_str. simpl. by apply startswith_slash. }
    unfold is_absolute at 2. rewrite Hr.
    unfold is_absolute, joinpath. rewrite Hr. simpl.
    unfold is_absolute in Hcwd. by destruct (root (cwd fs)). }
  unfold resolve, apply_subpath. by rewrite Hrp, Hsub.
Qed.

Lemma resolve_dot_slash_on_default_base_witness :
  resolve (init sample.repo_fs None) sample.repo_fs (sample.uri "./notes.md" None)
    (of_str "/tmp/t/home/cache")
  = resolve (init sample.repo_fs None) sample.repo_fs (sample.uri "notes.md" None)
      (of_str "/tmp/t/home/cache").
Proof.
  apply (resolve_dot_slash_on_default_base sample.repo_fs
           (sample.uri "notes.md" None) (sample.uri "./notes.md" None)
           (of_str "/tmp/t/home/cache")); reflexivity.
Defined.

End source_root_facts.

(** ** mentions/deduplicator.py: hashes, answers and growth *)

Section deduplicator_more.
Import deduplicator dedup_runs.

Local Abbreviation hash := hashlib.sha256_hexdigest.

Lemma first_seen_app_prefix {A : Type} `{EqDecision A} (l1 l2 : list A) :
  first_seen l1 `prefix_of` first_seen (l1 ++ l2).
Proof.
  induction l2 as [|x l2 IH] using rev_ind.
  - by rewrite app_nil_r.
  - rewrite app_assoc, first_seen_snoc. case_bool_decide; [done|].
    by apply prefix_app_r.
Qed.

Lemma paths_of_app h (calls1 calls2 : list (Path * string)) :
  paths_of h (calls1 ++ calls2) = paths_of h calls1 ++ paths_of h calls2.
Proof. unfold paths_of. by rewrite List.filter_app, fmap_app. Qed.

Lemma unique_files_of_tracked calls self :
  tracks calls self ->
  exists files,
    get_unique_files self = py.Return (files, self)
    /\ content_hash <$> files = dict.keys (_content_by_hash self).
Proof.
  intros Ht.
  destruct (collect_items self (_content_by_hash self)) as (files & Hcol & Hhs & _).
  { intros h c Hin. rewrite (tracked_paths calls self h Ht); [by eexists|].
    apply contains_keys. apply list_elem_of_fmap. by exists (h, c). }
  exists files. split; [|done]. unfold get_unique_files. by rewrite Hcol.
Qed.

(** X5: after any calls, [get_known_hashes] is the set of the hashes of
    the files [get_unique_files] returns, with as many elements as there
    are files, and it holds a hash exactly when some call supplied
    content with that hash. *)
Theorem known_hashes_are_unique_files calls :
  exists self files known,
    add_files init calls = py.Return self
    /\ get_unique_files self = py.Return (files, self)
    /\ get_known_hashes self = py.Return (known, self)
    /\ known = list_to_set (content_hash <$> files)
    /\ size known = length files
    /\ forall h, h ∈ known <-> exists p c, (p, c) ∈ calls /\ hash c = h.
Proof.
  destruct (add_files_init calls) as (self & Hrun & Ht).
  destruct (unique_files_of_tracked _ _ Ht) as (files & Hfiles & Hhs).
  exists self, files, (list_to_set (dict.keys (_content_by_hash self))).
  split; [done|]. split; [done|]. split; [done|]. split; [by rewrite Hhs|].
  pose proof (tracks_hashes _ _ Ht) as Hk. split.
  - rewrite size_list_to_set by (rewrite Hk; apply NoDup_first_seen).
    by rewrite <- Hhs, length_fmap.
  - intros h. rewrite elem_of_list_to_set, Hk, elem_of_first_seen, list_elem_of_fmap.
    split.
    + intros (c & -> & Hin). apply list_elem_of_fmap in Hin as ([p c0] & -> & Hin).
      by exists p, c0.
    + intros (p & c & Hin & <-). exists c. split; [done|].
      apply list_elem_of_fmap. by exists (p, c).
Qed.

(** X6: on a deduplicator reached by any calls, [add_file(p, c)] answers
    the opposite of what [is_seen(c)] answered just before, and
    [is_seen(c)] answers [True] from then on. *)
Theorem add_file_answers_not_seen calls p c :
  exists self seen self',
    add_files init calls = py.Return self
    /\ is_seen self c = py.Return (seen, self)
    /\ add_file self p c = py.Return (negb seen, self')
    /\ is_seen self' c = py.Return (true, self').
Proof.
  destruct (add_files_init calls) as (self & Hrun & Ht).
  destruct (add_file_step _ _ p c Ht) as (self' & Hadd & Ht').
  exists self, (dict.contains (hash c) (_content_by_hash self)), self'.
  split; [done|]. split; [done|]. split; [done|].
  unfold is_seen. do 2 f_equal. apply contains_keys.
  rewrite (tracks_hashes _ _ Ht'), elem_of_first_seen, snoc_hashes.
  apply elem_of_app. right. by left.
Qed.

(** [add_file] never replaces the content stored under a hash. *)
Lemma add_file_keeps_content calls self p c b self' h c0 :
  tracks calls self ->
  add_file self p c = py.Return (b, self') ->
  dict.get h (_content_by_hash self) = Some c0 ->
  dict.get h (_content_by_hash self') = Some c0.
Proof.
  intros Ht. unfold add_file, dict.getitem.
  destruct (dict.contains (hash c) (_content_by_hash self)) eqn:Hseen; simpl.
  - rewrite (tracked_paths _ _ _ Ht Hseen). simpl.
    case_bool_decide; simpl; intros Heq; injection Heq as <- <-; done.
  - intros Heq Hget. injection Heq as <- <-. simpl.
    rewrite get_setitem_ne; [done|]. intros <-.
    unfold dict.contains in Hseen. by rewrite Hget in Hseen.
Qed.

Lemma add_files_keep_content calls self more self' h c0 :
  tracks calls self ->
  add_files self more = py.Return self' ->
  dict.get h (_content_by_hash self) = Some c0 ->
  dict.get h (_content_by_hash self') = Some c0.
Proof.
  revert calls self. induction more as [|[p c] more IH]; intros calls self Ht; simpl.
  - intros Heq. by injection Heq as <-.
  - destruct (add_file_step _ _ p c Ht) as (self1 & Hadd & Ht1).
    rewrite Hadd. simpl. intros Hrun Hget.
    eapply IH; [exact Ht1|exact Hrun|].
    exact (add_file_keeps_content _ _ _ _ _ _ _ _ Ht Hadd Hget).
Qed.

(** X7: further calls only add.  After more [add_file] calls the hashes
    seen before come first and in the same order, each keeps the content
    stored under it, and each keeps its paths as the first paths of its
    list. *)
Theorem add_files_only_append calls more :
  exists self self',
    add_files init calls = py.Return self
    /\ add_files self more = py.Return self'
    /\ dict.keys (_content_by_hash self) `prefix_of` dict.keys (_content_by_hash self')
    /\ (forall h c, dict.get h (_content_by_hash self) = Some c ->
          dict.get h (_content_by_hash self') = Some c)
    /\ (forall h ps, dict.get h (_paths_by_hash self) = Some ps ->
          exists ps', dict.get h (_paths_by_hash self') = Some ps'
                      /\ ps `prefix_of` ps').
Proof.
  destruct (add_files_init calls) as (self & Hrun & Ht).
  destruct (add_files_tracks calls self more Ht) as (self' & Hmore & Ht').
  exists self, self'. split; [done|]. split; [done|]. split.
  { rewrite (tracks_hashes _ _ Ht), (tracks_hashes _ _ Ht'), !fmap_app.
    apply first_seen_app_prefix. }
  split.
  { intros h c Hget. exact (add_files_keep_content _ _ _ _ _ _ Ht Hmore Hget). }
  intros h ps Hget. pose proof (tracks_paths _ _ Ht _ _ Hget) as ->.
  exists (first_seen (paths_of h (calls ++ more))). split.
  - apply (tracked_paths _ _ _ Ht'). apply contains_keys.
    rewrite (tracks_hashes _ _ Ht'), !fmap_app, elem_of_first_seen.
    apply elem_of_app. left.
    rewrite <- elem_of_first_seen, <- (tracks_hashes _ _ Ht),
      <- (tracks_same_keys _ _ Ht).
    destruct (decide (h ∈ dict.keys (_paths_by_hash self))) as [|Hn]; [done|].
    apply get_None_keys in Hn. congruence.
  - rewrite paths_of_app. apply first_seen_app_prefix.
Qed.

(** The answers of a run, and the growth of the table of hashes. *)
Lemma add_files_answers_count before self calls :
  tracks before self ->
  exists answers self',
    add_files_answers self calls = py.Return (answers, self')
    /\ add_files self calls = py.Return self'
    /\ tracks (before ++ calls) self'
    /\ length answers = length calls
    /\ length (dict.keys (_content_by_hash self'))
       = length (dict.keys (_content_by_hash self)) + length (List.filter id answers).
Proof.
  revert before self. induction calls as [|[p c] calls IH]; intros before self Ht.
  - exists [], self. rewrite app_nil_r. simpl.
    split; [done|]. split; [done|]. split; [done|]. split; [done|]. lia.
  - destruct (add_file_step _ _ p c Ht) as (self1 & Hadd & Ht1).
    destruct (IH _ _ Ht1) as (answers & self' & Hans & Hrun & Ht' & Hlen & Hcount).
    exists (negb (dict.contains (hash c) (_content_by_hash self)) :: answers), self'.
    simpl. rewrite Hadd. simpl. rewrite Hans. simpl.
    split; [done|]. split; [done|]. split; [by rewrite <- app_assoc in Ht'|].
    split; [by rewrite Hlen|]. rewrite Hcount.
    rewrite (tracks_hashes _ _ Ht1), (tracks_hashes _ _ Ht), snoc_hashes, first_seen_snoc.
    destruct (dict.contains (hash c) (_content_by_hash self)) eqn:Hseen; simpl.
    + rewrite bool_decide_eq_true_2; [done|].
      rewrite <- elem_of_first_seen, <- (tracks_hashes _ _ Ht). by apply contains_keys.
    + rewrite bool_decide_eq_false_2.
      * rewrite length_app. simpl. lia.
      * rewrite <- (elem_of_first_seen (hash c)), <- (tracks_hashes _ _ Ht).
        by apply contains_false_keys.
Qed.

(** X8: over any run of [add_file] calls from an empty deduplicator there
    is one answer per call, and the [True] answers are as many as the
    files [get_unique_files] returns at the end. *)
Theorem true_answers_count_unique_files calls :
  exists answers self files,
    add_files_answers init calls = py.Return (answers, self)
    /\ get_unique_files self = py.Return (files, self)
    /\ length answers = length calls
    /\ length (List.filter id answers) = length files.
Proof.
  destruct (add_files_answers_count [] init calls tracks_init)
    as (answers & self & Hans & _ & Ht & Hlen & Hcount).
  destruct (unique_files_of_tracked _ _ Ht) as (files & Hfiles & Hhs).
  exists answers, self, files. split; [done|]. split; [done|]. split; [done|].
  simpl in Hcount. by rewrite <- Hcount, <- Hhs, length_fmap.
Qed.

End deduplicator_more.

(** ** mentions/resolver.py: registration and path mentions *)

Section mention_resolver_more.
Import mention_resolver.

Lemma append_cons a s t : String a s +:+ t = String a (s +:+ t).
Proof. reflexivity. Qed.


Lemma contains_app sep s t : py.contains sep (s +:+ String sep t) = true.
Proof.
  induction s as [|a s IH]; rewrite ?append_cons; simpl.
  - by rewrite Ascii.eqb_refl.
  - rewrite IH. by destruct (Ascii.eqb a sep).
Qed.

Lemma split1_app sep s t :
  py.contains sep s = false -> py.split1 sep (s +:+ String sep t) = [s; t].
Proof.
  induction s as [|a s IH]; rewrite ?append_cons; simpl.
  - intros _. by rewrite Ascii.eqb_refl.
  - destruct (Ascii.eqb a sep); [done|]. intros H. by rewrite (IH H).
Qed.


(** A mention [@namespace:name] with a colon-free namespace is looked up
    under that namespace. *)
Lemma resolve_namespace self fs namespace name :
  py.contains ":" namespace = false ->
  resolve self fs (String "@" (namespace +:+ String ":" name))
  = py.Return (match bundles self !! namespace with
               | Some bundle => resolve_context_path bundle name
               | None => None
               end).
Proof.
  intros Hns. unfold resolve.
  change (py.startswith "@" (String "@" (namespace +:+ String ":" name))) with true.
  change (py.tail (String "@" (namespace +:+ String ":" name)))
    with (namespace +:+ String ":" name).
  rewrite contains_app, (split1_app _ _ _ Hns). simpl.
  by destruct (bundles self !! namespace).
Qed.

(** X9: after [register_bundle(name, bundle)] with a colon-free name,
    every mention [@name:ctx] resolves to [bundle.resolve_context_path(ctx)]
    on any file system (a bundle registered under the name before is
    replaced), and mentions of any other namespace resolve as before. *)
Theorem register_bundle_then_resolve self name bundle :
  py.contains ":" name = false ->
  (forall fs ctx,
     resolve (register_bundle self name bundle) fs (String "@" (name +:+ String ":" ctx))
     = py.Return (resolve_context_path bundle ctx))
  /\ (forall fs other ctx,
        other <> name -> py.contains ":" other = false ->
        resolve (register_bundle self name bundle) fs
          (String "@" (other +:+ String ":" ctx))
        = resolve self fs (String "@" (other +:+ String ":" ctx))).
Proof.
  intros Hname. split.
  - intros fs ctx. rewrite (resolve_namespace _ _ _ _ Hname). simpl.
    by rewrite lookup_insert_eq.
  - intros fs other ctx Hne Hother. rewrite !(resolve_namespace _ _ _ _ Hother). simpl.
    by rewrite lookup_insert_ne.
Qed.

Lemma register_bundle_then_resolve_witness :
  resolve (register_bundle sample_resolver "docs" (context_bundle "docs"))
    sample.repo_fs "@docs:intro"
  = py.Return (Some (of_str "/bundles/docs/context/intro.md"))
  /\ resolve (register_bundle sample_resolver "docs" (context_bundle "docs"))
       sample.repo_fs "@foundation:shared"
     = resolve sample_resolver sample.repo_fs "@foundation:shared".
Proof.
  destruct (register_bundle_then_resolve sample_resolver "docs" (context_bundle "docs"))
    as [Hnew Hold]; [reflexivity|].
  split.
  - etransitivity; [exact (Hnew sample.repo_fs "intro")|]. vm_compute. reflexivity.
  - apply (Hold sample.repo_fs "foundation" "shared"); [discriminate|reflexivity].
Defined.

(** X10: a bundle registered under a name that holds a [:] is never
    reached: registering it changes the result of no mention. *)
Theorem register_colon_name_unreachable self name bundle fs mention :
  py.contains ":" name = true ->
  resolve (register_bundle self name bundle) fs mention = resolve self fs mention.
Proof.
  intros Hname. unfold resolve.
  destruct (negb (py.startswith "@" mention)); [done|].
  destruct (py.contains ":" (py.tail mention)) eqn:Hcolon; [|done].
  destruct (split1_first _ _ Hcolon) as (namespace & ctx & -> & _ & Hns).
  simpl. rewrite lookup_insert_ne; [done|]. intros <-. congruence.
Qed.

Lemma register_colon_name_unreachable_witness :
  resolve (register_bundle sample_resolver "team:docs" (context_bundle "docs"))
    sample.repo_fs "@team:docs:intro"
  = resolve sample_resolver sample.repo_fs "@team:docs:intro".
Proof.
  apply (register_colon_name_unreachable sample_resolver "team:docs"
           (context_bundle "docs") sample.repo_fs "@team:docs:intro").
  reflexivity.
Defined.





End mention_resolver_more.

(** ** modules/hooks-deprecation *)

Section deprecation_facts.
Import deprecation.

(** *** Substrings *)

Lemma startswith_app x t : py.startswith x (x +:+ t) = true.
Proof.
  induction x as [|a x IH]; [by destruct t|].
  rewrite append_cons. simpl. by rewrite Ascii.eqb_refl.
Qed.

Lemma startswith_elim x y : py.startswith x y = true -> exists t, y = x +:+ t.
Proof.
  revert y. induction x as [|a x IH]; intros y; simpl.
  - intros _. by exists y.
  - destruct y as [|b y]; [done|]. destruct (Ascii.eqb a b) eqn:E; [|done].
    apply Ascii.eqb_eq in E as ->. intros H. destruct (IH _ H) as [t ->]. by exists t.
Qed.

Lemma str_in_unfold x y :
  str_in x y = py.startswith x y
               || match y with EmptyString => false | String _ r => str_in x r end.
Proof. by destruct y. Qed.

Lemma str_in_intro s x t : str_in x (s +:+ x +:+ t) = true.
Proof.
  induction s as [|a s IH].
  - change (EmptyString +:+ x +:+ t) with (x +:+ t).
    rewrite str_in_unfold, startswith_app. done.
  - rewrite append_cons, str_in_unfold, IH. apply orb_true_r.
Qed.

Lemma str_in_elim x y : str_in x y = true -> exists s t, y = s +:+ x +:+ t.
Proof.
  induction y as [|b y IH]; rewrite str_in_unfold; intros H; apply orb_true_iff in H.
  - destruct H as [H|H]; [|done]. destruct (startswith_elim _ _ H) as [t ->].
    by exists EmptyString, t.
  - destruct H as [H|H].
    + destruct (startswith_elim _ _ H) as [t ->]. by exists EmptyString, t.
    + destruct (IH H) as (s & t & ->). by exists (String b s), t.
Qed.

Lemma append_assoc (s t u : string) : (s +:+ t) +:+ u = s +:+ t +:+ u.
Proof. induction s as [|a s IH]; [done|]. by rewrite !append_cons, IH. Qed.

Lemma append_nil_r (s : string) : s +:+ EmptyString = s.
Proof. induction s as [|a s IH]; [done|]. by rewrite append_cons, IH. Qed.

Lemma str_in_refl x : str_in x x = true.
Proof.
  pose proof (str_in_intro EmptyString x EmptyString) as H.
  change (EmptyString +:+ x +:+ EmptyString) with (x +:+ EmptyString) in H.
  by rewrite append_nil_r in H.
Qed.

Lemma str_in_trans x y z : str_in x y = true -> str_in y z = true -> str_in x z = true.
Proof.
  intros Hxy Hyz. destruct (str_in_elim _ _ Hxy) as (s & t & ->).
  destruct (str_in_elim _ _ Hyz) as (s' & t' & ->).
  rewrite !append_assoc, <- (append_assoc s' s). apply str_in_intro.
Qed.

Lemma str_in_join sep line lines :
  line ∈ lines -> str_in line (py.join sep lines) = true.
Proof.
  induction lines as [|w ws IH]; intros Hin; [by apply elem_of_nil in Hin|].
  apply elem_of_cons in Hin as [->|Hin].
  - destruct ws as [|w' ws]; [apply str_in_refl|].
    change (py.join sep (w :: w' :: ws)) with (w +:+ sep +:+ py.join sep (w' :: ws)).
    apply (str_in_intro EmptyString).
  - destruct ws as [|w' ws]; [by apply elem_of_nil in Hin|].
    change (py.join sep (w :: w' :: ws)) with (w +:+ sep +:+ py.join sep (w' :: ws)).
    eapply str_in_trans; [exact (IH Hin)|].
    rewrite <- append_assoc.
    pose proof (str_in_intro (w +:+ sep) (py.join sep (w' :: ws)) EmptyString) as H.
    by rewrite append_nil_r in H.
Qed.

(** *** [find_source_files] *)

Lemma scan_files_found h name files found :
  scan_files h name files found = found ++ scan_files h name files [].
Proof.
  revert found. induction files as [|f files IH]; intros found; simpl.
  - by rewrite app_nil_r.
  - destruct (read_text h f) as [content|]; [|apply IH].
    destruct (str_in name content); [|apply IH].
    rewrite (IH (found ++ [str f])), (IH [str f]). by rewrite <- app_assoc.
Qed.

Lemma scan_dirs_found h name dirs found :
  scan_dirs h name dirs found = found ++ scan_dirs h name dirs [].
Proof.
  revert found. induction dirs as [|d dirs IH]; intros found; simpl.
  - by rewrite app_nil_r.
  - destruct (is_dir h (truediv d ".amplifier")); simpl; [|apply IH].
    rewrite (IH (scan_files _ _ _ found)), (IH (scan_files _ _ _ [])).
    by rewrite (scan_files_found _ _ _ found), <- app_assoc.
Qed.



(** X14: the scan goes through the search directories in order and joins
    what it finds in each, so a directory that is listed twice has its
    files reported twice. *)
Theorem find_source_files_app h name dirs1 dirs2 :
  find_source_files h name (dirs1 ++ dirs2)
  = find_source_files h name dirs1 ++ find_source_files h name dirs2.
Proof.
  unfold find_source_files.
  assert (H : forall found, scan_dirs h name (dirs1 ++ dirs2) found
                            = scan_dirs h name dirs2 (scan_dirs h name dirs1 found)).
  { induction dirs1 as [|d dirs1 IH]; intros found; simpl; [done|].
    destruct (is_dir h (truediv d ".amplifier")); simpl; apply IH. }
  by rewrite H, scan_dirs_found.
Qed.

Example find_source_files_sample :
  find_source_files sample_host "lsp-python" [of_str "/work"; of_str "/root"; of_str "/work"]
  = ["/work/.amplifier/settings.yaml"; "/work/.amplifier/settings.yaml"].
Proof. vm_compute. reflexivity. Qed.

(** *** [DeprecationConfig.from_dict] and [effective_severity] *)

Lemma truthy_nonempty v s : truthy v = Some s -> v = Some s /\ s <> EmptyString.
Proof. destruct v as [[|a v]|]; simpl; intros H; inversion H; by subst. Qed.

(** What [from_dict] has checked of a configuration it returns. *)
Lemma from_dict_returned h raw cfg :
  from_dict h raw = py.Return cfg ->
  get raw "bundle_name" = Some (bundle_name cfg)
  /\ bundle_name cfg <> EmptyString
  /\ get raw "message" = Some (message cfg)
  /\ message cfg <> EmptyString
  /\ (severity cfg = "warning" \/ severity cfg = "info")
  /\ replacement cfg = get raw "replacement"
  /\ migration cfg = get raw "migration"
  /\ match truthy (get raw "sunset_date") with
     | Some raw_date => fromisoformat h raw_date = sunset_date cfg
                        /\ sunset_date cfg <> None
     | None => sunset_date cfg = None
     end.
Proof.
  unfold from_dict.
  destruct (truthy (get raw "bundle_name")) as [name|] eqn:Hname; [|done].
  destruct (truthy (get raw "message")) as [msg|] eqn:Hmsg; [|done].
  apply truthy_nonempty in Hname as [Hname Hname'].
  apply truthy_nonempty in Hmsg as [Hmsg Hmsg'].
  case_bool_decide as Hsev; simpl; [|done].
  assert (forall sev : option string,
            sev ∈ [Some "warning"; Some "info"] ->
            str_of sev = "warning" \/ str_of sev = "info") as Hstr.
  { intros sev Hin. apply list_elem_of_In in Hin.
    destruct Hin as [<-|[<-|[]]]; [by left|by right]. }
  destruct (truthy (get raw "sunset_date")) as [raw_date|]; simpl.
  - destruct (fromisoformat h raw_date) as [d|] eqn:Hd; simpl; [|done].
    intros Heq. injection Heq as <-. simpl. repeat split; auto.
  - intros Heq. injection Heq as <-. simpl. repeat split; auto.
Qed.

(** X15: [from_dict] raises nothing but [ValueError]; a configuration it
    returns has a non-empty bundle name and message taken from the
    dictionary, a severity that is [warning] or [info], and a sunset date
    only if the dictionary holds a non-empty one that the date parser
    accepts.  A dictionary without [bundle_name] (the empty one included)
    is rejected with the message about [bundle_name]. *)
Theorem from_dict_validates h raw :
  (forall e, from_dict h raw = py.Raise e -> exists msg, e = py.ValueError msg)
  /\ (forall cfg, from_dict h raw = py.Return cfg ->
        get raw "bundle_name" = Some (bundle_name cfg)
        /\ bundle_name cfg <> EmptyString
        /\ get raw "message" = Some (message cfg)
        /\ message cfg <> EmptyString
        /\ (severity cfg = "warning" \/ severity cfg = "info")
        /\ (forall d, sunset_date cfg = Some d ->
              exists raw_date, get raw "sunset_date" = Some raw_date
                               /\ raw_date <> EmptyString
                               /\ fromisoformat h raw_date = Some d))
  /\ (raw !! "bundle_name" = None ->
      from_dict h raw
      = py.Raise (py.ValueError "bundle_name is required in deprecation hook config")).
Proof.
  split; [|split].
  - intros e. unfold from_dict.
    destruct (truthy (get raw "bundle_name")); [|intros He; injection He as <-; by eexists].
    destruct (truthy (get raw "message")); [|intros He; injection He as <-; by eexists].
    case_bool_decide as Hsev; simpl; [|intros He; injection He as <-; by eexists].
    destruct (truthy (get raw "sunset_date")) as [raw_date|]; simpl; [|done].
    destruct (fromisoformat h raw_date); simpl; [done|].
    intros He; injection He as <-; by eexists.
  - intros cfg Hcfg.
    destruct (from_dict_returned _ _ _ Hcfg)
      as (Hn & Hn' & Hm & Hm' & Hsev & _ & _ & Hdate).
    repeat split; try done. intros d Hd.
    destruct (truthy (get raw "sunset_date")) as [raw_date|] eqn:Ht.
    + apply truthy_nonempty in Ht as [Hget Hne]. destruct Hdate as [Hparse _].
      exists raw_date. by rewrite Hparse.
    + congruence.
  - intros Hmissing. unfold from_dict, get. by rewrite Hmissing.
Qed.

Lemma from_dict_validates_witness :
  exists cfg,
    from_dict sample_host sample_raw = py.Return cfg
    /\ bundle_name cfg <> EmptyString
    /\ (severity cfg = "warning" \/ severity cfg = "info")
    /\ from_dict sample_host ∅
       = py.Raise (py.ValueError "bundle_name is required in deprecation hook config").
Proof.
  destruct (from_dict_validates sample_host sample_raw) as (_ & Hret & _).
  destruct (from_dict_validates sample_host ∅) as (_ & _ & Hempty).
  exists sample_config.
  assert (from_dict sample_host sample_raw = py.Return sample_config) as Hcfg
    by (vm_compute; reflexivity).
  destruct (Hret _ Hcfg) as (_ & Hname & _ & _ & Hsev & _).
  split; [exact Hcfg|]. split; [exact Hname|]. split; [exact Hsev|].
  apply Hempty. reflexivity.
Defined.

(** X16: for a configuration that [from_dict] returned, the effective
    severity is [info], [warning] or [urgent]; it is [urgent] exactly for
    a [warning] whose sunset date lies strictly before today, and [info]
    exactly for an [info] whose sunset date, if any, does not. *)
Theorem accepted_severity_escalates h raw cfg :
  from_dict h raw = py.Return cfg ->
  let past := match sunset_date cfg with
              | Some d => date_lt d (today h)
              | None => false
              end in
  (effective_severity h cfg = "info" \/ effective_severity h cfg = "warning"
   \/ effective_severity h cfg = "urgent")
  /\ (effective_severity h cfg = "urgent" <-> severity cfg = "warning" /\ past = true)
  /\ (effective_severity h cfg = "info" <-> severity cfg = "info" /\ past = false).
Proof.
  intros Hcfg past.
  destruct (from_dict_returned _ _ _ Hcfg) as (_ & _ & _ & _ & Hsev & _).
  unfold effective_severity. subst past.
  destruct (sunset_date cfg) as [d|]; [destruct (date_lt d (today h))|];
    destruct Hsev as [-> | ->]; simpl; repeat split; intros; intuition congruence.
Qed.

Lemma accepted_severity_escalates_witness :
  effective_severity sample_host sample_config = "urgent".
Proof.
  destruct (accepted_severity_escalates sample_host sample_raw sample_config)
    as (_ & Hurgent & _); [vm_compute; reflexivity|].
  apply Hurgent. split; reflexivity.
Defined.

(** *** The two texts *)

Local Abbreviation newline := (String "010"%char EmptyString).

(** The lines of the context block, in order. *)
Lemma build_warning_text_lines cfg sev files :
  build_warning_text cfg sev files
  = py.join newline
      ([ (if String.eqb sev "urgent"
          then "URGENT DEPRECATION WARNING: " +:+ bundle_name cfg
          else "DEPRECATION WARNING: " +:+ bundle_name cfg);
         EmptyString; message cfg ]
       ++ match truthy (replacement cfg) with
          | Some r => ["Replacement: " +:+ r]
          | None => []
          end
       ++ match sunset_date cfg with
          | Some d => ["Sunset date: " +:+ isoformat d]
          | None => []
          end
       ++ match files with
          | [] => []
          | _ => [EmptyString; "Found in:"] ++ ((fun path => "  - " +:+ path) <$> files)
          end
       ++ match truthy (migration cfg) with
          | Some m => [EmptyString; "Migration steps:"; m]
          | None => []
          end).
Proof.
  unfold build_warning_text. f_equal.
  destruct (truthy (replacement cfg)), (sunset_date cfg), files,
    (truthy (migration cfg)); simpl; rewrite <- ?app_assoc; try done;
    simpl; rewrite ?app_nil_r; done.
Qed.

(** X17: the context block starts with the header line (the [URGENT]
    one exactly when the severity passed is [urgent]) and holds, as
    substrings, the bundle name, the message, a non-empty replacement, the
    sunset date in ISO form, every source file path and a non-empty
    migration text. *)
Theorem build_warning_text_holds_details cfg sev files :
  let text := build_warning_text cfg sev files in
  py.startswith (if String.eqb sev "urgent"
                 then "URGENT DEPRECATION WARNING: " +:+ bundle_name cfg
                 else "DEPRECATION WARNING: " +:+ bundle_name cfg) text = true
  /\ str_in (bundle_name cfg) text = true
  /\ str_in (message cfg) text = true
  /\ (forall r, truthy (replacement cfg) = Some r -> str_in r text = true)
  /\ (forall d, sunset_date cfg = Some d -> str_in (isoformat d) text = true)
  /\ (forall path, path ∈ files -> str_in path text = true)
  /\ (forall m, truthy (migration cfg) = Some m -> str_in m text = true).
Proof.
  intros text. subst text. rewrite build_warning_text_lines.
  set (header := if String.eqb sev "urgent"
                 then "URGENT DEPRECATION WARNING: " +:+ bundle_name cfg
                 else "DEPRECATION WARNING: " +:+ bundle_name cfg).
  set (lines := _ ++ _).
  assert (Hline : forall x line, line ∈ lines ->
            str_in x line = true -> str_in x (py.join newline lines) = true).
  { intros x line Hin Hx. eapply str_in_trans; [exact Hx|]. by apply str_in_join. }
  split; [|split; [|split; [|split; [|split; [|split]]]]].
  - subst lines. rewrite <- !app_comm_cons.
    change (py.join newline (header :: EmptyString :: ?l))
      with (header +:+ newline +:+ py.join newline (EmptyString :: l)).
    apply startswith_app.
  - apply (Hline _ header); [subst lines; apply elem_of_app; left; by left|].
    subst header.
    destruct (String.eqb sev "urgent").
    + pose proof (str_in_intro "URGENT DEPRECATION WARNING: " (bundle_name cfg)
                    EmptyString) as H.
      by rewrite append_nil_r in H.
    + pose proof (str_in_intro "DEPRECATION WARNING: " (bundle_name cfg)
                    EmptyString) as H.
      by rewrite append_nil_r in H.
  - apply (Hline _ (message cfg)); [|apply str_in_refl].
    subst lines. apply elem_of_app. left. right. right. by left.
  - intros r Hr. apply (Hline _ ("Replacement: " +:+ r)).
    + subst lines. rewrite Hr. apply elem_of_app. right. apply elem_of_app. left. by left.
    + pose proof (str_in_intro "Replacement: " r EmptyString) as H.
      by rewrite append_nil_r in H.
  - intros d Hd. apply (Hline _ ("Sunset date: " +:+ isoformat d)).
    + subst lines. rewrite Hd. apply elem_of_app. right. apply elem_of_app. right.
      apply elem_of_app. left. by left.
    + pose proof (str_in_intro "Sunset date: " (isoformat d) EmptyString) as H.
      by rewrite append_nil_r in H.
  - intros path Hpath. apply (Hline _ ("  - " +:+ path)).
    + subst lines. apply elem_of_app. right. apply elem_of_app. right.
      apply elem_of_app. right. apply elem_of_app. left.
      destruct files as [|f files]; [by apply elem_of_nil in Hpath|].
      apply elem_of_app. right. apply list_elem_of_fmap. by exists path.
    + pose proof (str_in_intro "  - " path EmptyString) as H.
      by rewrite append_nil_r in H.
  - intros m Hm. apply (Hline _ m); [|apply str_in_refl].
    subst lines. rewrite Hm. apply elem_of_app. right. apply elem_of_app. right.
    apply elem_of_app. right. apply elem_of_app. right. right. right. by left.
Qed.

Lemma build_warning_text_holds_details_witness :
  str_in "python-dev" (build_warning_text sample_config "urgent"
                         ["/work/.amplifier/settings.yaml"]) = true
  /\ str_in "2025-12-31" (build_warning_text sample_config "urgent"
                            ["/work/.amplifier/settings.yaml"]) = true
  /\ str_in "/work/.amplifier/settings.yaml"
       (build_warning_text sample_config "urgent" ["/work/.amplifier/settings.yaml"])
     = true.
Proof.
  destruct (build_warning_text_holds_details sample_config "urgent"
              ["/work/.amplifier/settings.yaml"])
    as (_ & _ & _ & Hrepl & Hdate & Hfiles & _).
  split; [exact (Hrepl "python-dev" eq_refl)|].
  split; [exact (Hdate (mkDate 2025 12 31) eq_refl)|].
  apply Hfiles. by left.
Defined.

(** X18: the user message starts with [URGENT: ] exactly when the
    severity passed is [urgent], and holds the bundle name, the message
    and a non-empty replacement. *)
Theorem build_user_message_holds_details cfg sev :
  let msg := build_user_message cfg sev in
  py.startswith "URGENT: " msg = String.eqb sev "urgent"
  /\ str_in (bundle_name cfg) msg = true
  /\ str_in (message cfg) msg = true
  /\ (forall r, truthy (replacement cfg) = Some r -> str_in r msg = true).
Proof.
  intros msg. subst msg. unfold build_user_message.
  set (prefix := if String.eqb sev "urgent" then "URGENT: " else EmptyString).
  set (base := prefix +:+ "Deprecated bundle '" +:+ bundle_name cfg +:+ "': "
               +:+ message cfg).
  assert (Hstart : forall t, py.startswith "URGENT: " (base +:+ t)
                             = String.eqb sev "urgent").
  { intros t. subst base prefix. destruct (String.eqb sev "urgent"); [|done].
    rewrite append_assoc. apply startswith_app. }
  assert (Hname : forall t, str_in (bundle_name cfg) (base +:+ t) = true).
  { intros t. subst base. rewrite !append_assoc.
    rewrite <- (append_assoc prefix). apply str_in_intro. }
  assert (Hmsg : forall t, str_in (message cfg) (base +:+ t) = true).
  { intros t. subst base. rewrite !append_assoc.
    rewrite <- (append_assoc (bundle_name cfg)).
    rewrite <- (append_assoc "Deprecated bundle '").
    rewrite <- (append_assoc prefix). apply str_in_intro. }
  destruct (truthy (replacement cfg)) as [r|].
  - split; [apply Hstart|]. split; [apply Hname|]. split; [apply Hmsg|].
    intros r' Hr'. injection Hr' as <-.
    rewrite <- (append_assoc base). apply str_in_intro.
  - rewrite <- (append_nil_r base).
    split; [apply Hstart|]. split; [apply Hname|]. split; [apply Hmsg|]. done.
Qed.

Lemma build_user_message_holds_details_witness :
  str_in "python-dev" (build_user_message sample_config "warning") = true.
Proof.
  destruct (build_user_message_holds_details sample_config "warning")
    as (_ & _ & _ & Hrepl).
  exact (Hrepl "python-dev" eq_refl).
Defined.

(** *** The hook and its mounting *)






(** X21: [mount] either raises and leaves the coordinator as it was, or
    returns the metadata and adds exactly one registration: a hook that
    has not fired, for [session:start], priority 10, name [deprecation],
    holding the parsed configuration and searching the session's working
    directory (when the capability names one), the process working
    directory and the home directory, in that order.  Without a
    configuration it raises the [ValueError] about [bundle_name]. *)
Theorem mount_registers_one_hook fs h c config :
  (forall e, (mount fs h c config).1 = py.Raise e -> (mount fs h c config).2 = c)
  /\ (forall meta, (mount fs h c config).1 = py.Return meta ->
        exists parsed home hook,
          from_dict h (match config with Some raw => raw | None => ∅ end)
          = py.Return parsed
          /\ mention_resolver.expanduser fs (of_str "~") = py.Return home
          /\ registered (mount fs h c config).2
             = registered c ++ [{| reg_event := "session:start"; reg_handler := hook;
                                   reg_priority := 10; reg_name := "deprecation" |}]
          /\ deprecation.config hook = parsed
          /\ _fired hook = false
          /\ search_dirs hook
             = match truthy (get_capability c "session.working_dir") with
               | Some wd => [of_str wd]
               | None => []
               end ++ [cwd fs; home]
          /\ meta_bundle_name (meta_config meta) = bundle_name parsed)
  /\ (config = None ->
      (mount fs h c config).1
      = py.Raise (py.ValueError "bundle_name is required in deprecation hook config")).
Proof.
  split; [|split].
  - intros e. unfold mount.
    destruct (from_dict h _) as [parsed|e']; [|done].
    destruct (mention_resolver.expanduser fs (of_str "~")) as [home|e']; done.
  - intros meta. unfold mount.
    destruct (from_dict h _) as [parsed|e'] eqn:Hparsed; [|done].
    destruct (mention_resolver.expanduser fs (of_str "~")) as [home|e'] eqn:Hhome;
      [|done].
    simpl. intros Hmeta. injection Hmeta as <-.
    eexists parsed, home, _. split; [done|]. split; [done|]. split; [reflexivity|].
    simpl. split; [done|]. split; [done|]. split; [|done].
    by rewrite <- app_assoc.
  - intros ->. unfold mount. done.
Qed.

Lemma mount_registers_one_hook_witness :
  exists meta hook,
    (mount sample.repo_fs sample_host sample_coordinator (Some sample_raw)).1
    = py.Return meta
    /\ registered (mount sample.repo_fs sample_host sample_coordinator
                     (Some sample_raw)).2
       = [{| reg_event := "session:start"; reg_handler := hook;
             reg_priority := 10; reg_name := "deprecation" |}]
    /\ search_dirs hook = [of_str "/work"; of_str "/work"; of_str "/root"].
Proof.
  destruct (mount_registers_one_hook sample.repo_fs sample_host sample_coordinator
              (Some sample_raw)) as (_ & Hret & _).
  destruct (mount sample.repo_fs sample_host sample_coordinator (Some sample_raw)).1
    as [meta|e] eqn:Hmount; [|vm_compute in Hmount; discriminate Hmount].
  destruct (Hret meta eq_refl) as (parsed & home & hook & _ & Hhome & Hreg & _ & _ & Hdirs & _).
  exists meta, hook. split; [done|]. split; [exact Hreg|].
  rewrite Hdirs. vm_compute in Hhome. injection Hhome as <-. reflexivity.
Defined.

End deprecation_facts.

(* ===================================================================== *)
(** * Properties over path operations that can fail                       *)
(* ===================================================================== *)

(** ** sources/file.py *)

Section file_source_os_facts.
Import posix file_source_os.

(** On a system none of whose operations fails, [resolve] is the
    [resolve] of the exception-free reading. *)
Lemma resolve_of_filesystem self fs parsed cache_dir :
  resolve self (of_filesystem fs) parsed cache_dir
  = of_result (file_source.resolve self fs parsed cache_dir).
Proof.
  unfold resolve, file_source.resolve, resolved_path, posix.resolve. simpl.
  fold (pathlib.absolute fs (if py.startswith "./" (file_source.path parsed)
                                || py.startswith "../" (file_source.path parsed)
                             then truediv (file_source.base_path self)
                                    (file_source.path parsed)
                             else of_str (file_source.path parsed))).
  fold (pathlib.resolve fs (if py.startswith "./" (file_source.path parsed)
                               || py.startswith "../" (file_source.path parsed)
                            then truediv (file_source.base_path self)
                                   (file_source.path parsed)
                            else of_str (file_source.path parsed))).
  fold (file_source.resolved_path self fs parsed).
  destruct (path_exists fs _); simpl; [|done].
  unfold _find_source_root, file_source._find_source_root, posix.resolve. simpl.
  fold (pathlib.absolute fs cache_dir). fold (pathlib.resolve fs cache_dir).
  destruct (relative_to _ (pathlib.resolve fs cache_dir)) as [rel|[]]; simpl;
    try done; try (by destruct (path_is_file fs _)).
  destruct (parts rel); simpl; [by destruct (path_is_file fs _)|done].
Qed.




Lemma resolved_path_os_names self sys parsed rp :
  resolved_path self sys parsed = Answer rp -> Forall is_name (names rp).
Proof.
  unfold resolved_path, posix.resolve. destruct (sys_realpath sys _); [|done].
  intros Heq. injection Heq as <-. apply of_str_names.
Qed.




(** C4, at the subpath [../../..] of the cached repository
    [/tmp/t/home/cache/foundation-abc]: the final active path exists and
    [resolve] returns; the subpath is joined on after [resolve()] and its
    [..] names stay, so [_find_source_root] takes the active path to be
    within the cache and answers [/tmp/t/home/cache/foundation-abc], while
    the active path leads to [/tmp/t], which is above that source root and
    outside the cache. *)
Theorem resolve_dotdot_subpath_above_source_root :
  exists rs,
    resolve (file_source.init sample.repo_fs None) cases.repo_system
      (sample.uri "/tmp/t/home/cache/foundation-abc" (Some "../../.."))
      (of_str "/tmp/t/home/cache") = Returns rs
    /\ path_exists sample.repo_fs (file_source.active_path rs) = true
    /\ location (file_source.active_path rs) = of_str "/tmp/t"
    /\ file_source.source_root rs = of_str "/tmp/t/home/cache/foundation-abc"
    /\ ~ is_relative_to (location (file_source.active_path rs))
                        (location (file_source.source_root rs)).
Proof.
  eexists. split; [vm_compute; reflexivity|]. simpl.
  split; [vm_compute; reflexivity|]. split; [vm_compute; reflexivity|].
  split; [vm_compute; reflexivity|].
  intros [_ [rest Hrest]]. vm_compute in Hrest. discriminate Hrest.
Qed.

(** X23: [resolve] raises [BundleNotFoundError] exactly when [resolve()]
    gave the resolved path and [exists()] answers [False] for the final
    active path (the resolved path with the subpath joined on), and it
    raises no other exception of its own.  When [exists()] answers [True]
    it returns a [ResolvedSource] for that path, unless resolving the
    cache directory or [is_file()] fails.  An exception of [resolve()] or
    of [exists()] itself passes through instead. *)
Theorem resolve_not_found_iff_exists_false self sys parsed cache_dir :
  (forall msg,
     resolve self sys parsed cache_dir = Raises (py.BundleNotFoundError msg)
     <-> exists rp,
           resolved_path self sys parsed = Answer rp
           /\ sys_exists sys (file_source.apply_subpath rp parsed) = Answer false
           /\ msg = "File not found: " +:+ str (file_source.apply_subpath rp parsed))
  /\ (forall e, resolve self sys parsed cache_dir = Raises e ->
        exists msg, e = py.BundleNotFoundError msg)
  /\ (forall rp,
        resolved_path self sys parsed = Answer rp ->
        sys_exists sys (file_source.apply_subpath rp parsed) = Answer true ->
        (exists rs, resolve self sys parsed cache_dir = Returns rs
                    /\ file_source.active_path rs = file_source.apply_subpath rp parsed)
        \/ (exists f, resolve self sys parsed cache_dir = Faults f
                      /\ (posix.resolve sys cache_dir = Fault f
                          \/ sys_is_file sys (file_source.apply_subpath rp parsed)
                             = Fault f)))
  /\ (forall f, resolved_path self sys parsed = Fault f ->
        resolve self sys parsed cache_dir = Faults f)
  /\ (forall rp f,
        resolved_path self sys parsed = Answer rp ->
        sys_exists sys (file_source.apply_subpath rp parsed) = Fault f ->
        resolve self sys parsed cache_dir = Faults f).
Proof.
  assert (Hroot : forall active,
            Forall is_name (names active) ->
            (exists r, _find_source_root self sys active cache_dir = Returns r)
            \/ (exists f, _find_source_root self sys active cache_dir = Faults f
                          /\ (posix.resolve sys cache_dir = Fault f
                              \/ sys_is_file sys active = Fault f))).
  { intros active Hnames. unfold _find_source_root.
    destruct (posix.resolve sys cache_dir) as [c|f]; simpl;
      [|right; exists f; split; [done|by left]].
    set (fallback := ask! is_file := sys_is_file sys active in
                     if is_file then Returns (parent active) else Returns active).
    assert (Hfb : forall Q : fault -> Prop,
              (exists r, fallback = Returns r)
              \/ (exists f, fallback = Faults f
                            /\ (Q f \/ sys_is_file sys active = Fault f))).
    { intros Q. subst fallback. destruct (sys_is_file sys active) as [[]|f]; simpl.
      - left. by eexists.
      - left. by eexists.
      - right. exists f. split; [done|by right]. }
    unfold relative_to. case_bool_decide; [|exact (Hfb (fun f => Answer c = Fault f))].
    destruct (strip_prefix _ _) as [rest|];
      [|exact (Hfb (fun f => Answer c = Fault f))].
    unfold parts. simpl.
    destruct rest; [exact (Hfb (fun f => Answer c = Fault f))|]. left. by eexists. }
  unfold resolve.
  destruct (resolved_path self sys parsed) as [rp|f0] eqn:Hrp; simpl.
  - pose proof (resolved_path_os_names _ _ _ _ Hrp) as Hnames.
    destruct (sys_exists sys (file_source.apply_subpath rp parsed)) as [[]|f1] eqn:Hex;
      simpl.
    + destruct (Hroot (file_source.apply_subpath rp parsed)) as [[r Hr]|(f & Hf & Hwhy)];
        [by apply apply_subpath_names|..].
      * rewrite Hr. simpl. split; [|split; [|split; [|split]]]; try done.
        -- intros msg. split; [done|]. intros (rp' & Heq & Hno & _).
           injection Heq as <-. congruence.
        -- intros rp' Heq _. injection Heq as <-. left. by eexists.
        -- intros rp' f Heq Hf. injection Heq as <-. congruence.
      * rewrite Hf. simpl. split; [|split; [|split; [|split]]]; try done.
        -- intros msg. split; [done|]. intros (rp' & Heq & Hno & _).
           injection Heq as <-. congruence.
        -- intros rp' Heq _. injection Heq as <-. right. by exists f.
        -- intros rp' f' Heq Hf'. injection Heq as <-. congruence.
    + split; [|split; [|split; [|split]]]; try done.
      * intros msg. split.
        -- intros Heq. injection Heq as <-. by exists rp.
        -- intros (rp' & Heq & _ & ->). by injection Heq as <-.
      * intros e Heq. injection Heq as <-. by eexists.
      * intros rp' Heq Hyes. injection Heq as <-. congruence.
      * intros rp' f Heq Hf. injection Heq as <-. congruence.
    + split; [|split; [|split; [|split]]]; try done.
      * intros msg. split; [done|]. intros (rp' & Heq & Hno & _).
        injection Heq as <-. congruence.
      * intros rp' Heq Hyes. injection Heq as <-. congruence.
      * intros rp' f Heq Hf. injection Heq as <-. congruence.
  - split; [|split; [|split; [|split]]]; try done.
    + intros msg. split; [done|]. by intros (rp' & Heq & _).
    + intros f Heq. by injection Heq as <-.
Qed.

Lemma resolve_not_found_iff_exists_false_witness :
  resolve (file_source.init sample.repo_fs None) cases.repo_system
    (sample.uri "/tmp/t/x" (Some "behaviors/recipes")) (of_str "/tmp/t/home/cache")
  = Raises (py.BundleNotFoundError "File not found: /tmp/t/x/behaviors/recipes")
  /\ exists rs,
       resolve (file_source.init sample.repo_fs None) cases.repo_system
         (sample.uri "/tmp/t" (Some "context/shared.md")) (of_str "/tmp/t/home/cache")
       = Returns rs
       /\ file_source.active_path rs = of_str "/tmp/t/context/shared.md".
Proof.
  split.
  - destruct (resolve_not_found_iff_exists_false (file_source.init sample.repo_fs None)
                cases.repo_system (sample.uri "/tmp/t/x" (Some "behaviors/recipes"))
                (of_str "/tmp/t/home/cache")) as (Hiff & _).
    apply Hiff. exists (of_str "/tmp/t/x"). repeat split; vm_compute; reflexivity.
  - destruct (resolve_not_found_iff_exists_false (file_source.init sample.repo_fs None)
                cases.repo_system (sample.uri "/tmp/t" (Some "context/shared.md"))
                (of_str "/tmp/t/home/cache")) as (_ & _ & Hyes & _).
    destruct (Hyes (of_str "/tmp/t")) as [Hret|(f & Hf & _)];
      [vm_compute; reflexivity|vm_compute; reflexivity|exact Hret|].
    vm_compute in Hf. discriminate Hf.
Defined.

(** C9, at the path [/tmp/t/aaa...a] with a name of 300 bytes: the path
    does not exist, yet [resolve] does not raise [BundleNotFoundError]:
    [exists()] raises [OSError] ([ENAMETOOLONG]), which is what the caller
    gets.  A path with a NUL byte does not exist either, and there
    [resolve()] raises [ValueError]. *)
Theorem resolve_missing_path_raises_oserror :
  path_exists sample.repo_fs (of_str ("/tmp/t/" +:+ cases.letters 300)) = false
  /\ resolve (file_source.init sample.repo_fs None) cases.repo_system
       (sample.uri ("/tmp/t/" +:+ cases.letters 300) None) (of_str "/tmp/t/home/cache")
     = Faults (OSError 36 "File name too long")
  /\ path_exists sample.repo_fs (of_str (String "/" (String "000" "x"))) = false
  /\ resolve (file_source.init sample.repo_fs None) cases.repo_system
       (sample.uri (String "/" (String "000" "x")) None) (of_str "/tmp/t/home/cache")
     = Faults (ValueError "embedded null byte").
Proof. vm_compute. repeat split; reflexivity. Qed.

End file_source_os_facts.

(** ** mentions/resolver.py *)

Section mention_resolver_os_facts.
Import posix mention_resolver_os.

(** X11: a mention whose body holds no [:] and does not start with [~]
    is a path below the working directory.  [resolve] asks [exists()] for
    that path and returns it on [True]; only on [False] does it ask for
    the path with [.md] appended, returning it on [True] and [None] on
    [False].  It raises nothing of its own: the one way not to return is
    an exception of one of these [exists()] calls, which passes through.
    Neither the registered bundles nor the resolver's [base_path] play
    any part. *)
Theorem resolve_path_mention_lookups self sys mention_body :
  py.contains ":" mention_body = false ->
  py.startswith "~" mention_body = false ->
  let path := truediv (sys_cwd sys) mention_body in
  let path_md := truediv (sys_cwd sys) (mention_body +:+ ".md") in
  resolve self sys (String "@" mention_body)
  = match sys_exists sys path with
    | Answer true => Returns (Some path)
    | Answer false =>
        match sys_exists sys path_md with
        | Answer true => Returns (Some path_md)
        | Answer false => Returns None
        | Fault f => Faults f
        end
    | Fault f => Faults f
    end
  /\ (forall e, resolve self sys (String "@" mention_body) <> Raises e)
  /\ (forall other, resolve other sys (String "@" mention_body)
                    = resolve self sys (String "@" mention_body)).
Proof.
  intros Hcolon Htilde path path_md.
  assert (Hres : forall r, resolve r sys (String "@" mention_body)
            = match sys_exists sys path with
              | Answer true => Returns (Some path)
              | Answer false =>
                  match sys_exists sys path_md with
                  | Answer true => Returns (Some path_md)
                  | Answer false => Returns None
                  | Fault f => Faults f
                  end
              | Fault f => Faults f
              end).
  { intros r. unfold resolve, candidates.
    change (py.startswith "@" (String "@" mention_body)) with true.
    change (py.tail (String "@" mention_body)) with mention_body.
    rewrite Hcolon, Htilde. simpl. fold path path_md.
    destruct (sys_exists sys path) as [[]|f]; simpl; [done| |done].
    by destruct (sys_exists sys path_md) as [[]|f]. }
  split; [apply Hres|]. split.
  - intros e. rewrite Hres.
    destruct (sys_exists sys path) as [[]|f]; [done| |done].
    by destruct (sys_exists sys path_md) as [[]|f].
  - intros other. by rewrite !Hres.
Qed.

Lemma resolve_path_mention_lookups_witness :
  resolve mention_resolver.sample_resolver cases.repo_system "@notes"
  = Returns (Some (of_str "/work/notes.md"))
  /\ resolve mention_resolver.sample_resolver cases.repo_system
       (String "@" (cases.letters 300))
     = Faults (OSError 36 "File name too long").
Proof.
  split.
  - destruct (resolve_path_mention_lookups mention_resolver.sample_resolver
                cases.repo_system "notes") as (Hres & _); [reflexivity|reflexivity|].
    etransitivity; [exact Hres|]. vm_compute. reflexivity.
  - destruct (resolve_path_mention_lookups mention_resolver.sample_resolver
                cases.repo_system (cases.letters 300)) as (Hres & _);
      [vm_compute; reflexivity|vm_compute; reflexivity|].
    etransitivity; [exact Hres|]. vm_compute. reflexivity.
Defined.

End mention_resolver_os_facts.

(** ** mentions/deduplicator.py: what [is_seen] compares *)

Section digest_facts.
Import deduplicator cases.

Local Abbreviation hash := hashlib.sha256_hexdigest.

(** *** Two different contents with one digest *)
















End digest_facts.
